(** * auto-update-models.py: selection, resolution and naming policy

    A shallow embedding of [scripts/models/auto-update-models.py] and the
    properties of its model-selection pipeline.

    Conventions of the embedding.
    - A Python [str] is a [string]; model ids, repository file names and
      directory names are ASCII (the hub restricts repository ids to ASCII
      letters, digits, '-', '_' and '.'), so [str.lower] and [str.isalnum]
      are their ASCII versions.
    - A Python [int] is a [Z].
    - The hub ([HfApi]), the external download tool and the host are
      collaborators of the script; they are fields of the record [Env], and
      every statement quantifies over them.
    - The configuration directory is a finite map from path strings to file
      contents, together with the trace of the writes made so far. *)

From Stdlib Require Import ZArith Ascii String List Bool Lia.
From Stdlib Require Import Sorting.Mergesort Sorting.Sorted Sorting.Permutation.
From Stdlib Require Import Numbers.DecimalString.
From stdpp Require Import base option gmap strings.

Import ListNotations.
Local Open Scope list_scope.
Local Open Scope bool_scope.
Local Open Scope string_scope.

(** [simpl] unfolds string concatenation on a constructor, as it does for
    lists. *)
#[local] Arguments String.append !s1 s2 : simpl nomatch.

(** ** Python string primitives *)

Module Py.

Definition nl : string := String (ascii_of_nat 10) EmptyString.
Definition dquote : string := String (ascii_of_nat 34) EmptyString.

(** [c in chars] for a one-character [c]. *)
Fixpoint char_in (c : ascii) (chars : string) : bool :=
  match chars with
  | EmptyString => false
  | String d chars' => Ascii.eqb c d || char_in c chars'
  end.

Definition between (lo hi c : ascii) : bool :=
  (nat_of_ascii lo <=? nat_of_ascii c)%nat && (nat_of_ascii c <=? nat_of_ascii hi)%nat.

Definition isupper (c : ascii) : bool := between "A" "Z" c.
Definition islower (c : ascii) : bool := between "a" "z" c.
Definition isdigit (c : ascii) : bool := between "0" "9" c.

(** [c.isalnum()] *)
Definition isalnum (c : ascii) : bool := isdigit c || isupper c || islower c.

Definition lower_char (c : ascii) : ascii :=
  if isupper c then ascii_of_nat (nat_of_ascii c + 32) else c.

Fixpoint map_chars (f : ascii -> ascii) (s : string) : string :=
  match s with
  | EmptyString => EmptyString
  | String c s' => String (f c) (map_chars f s')
  end.

(** [s.lower()] *)
Definition lower (s : string) : string := map_chars lower_char s.

(** [s.startswith(p)] *)
Definition startswith (s p : string) : bool := String.prefix p s.

(** [sub in s] *)
Fixpoint contains (sub s : string) : bool :=
  String.prefix sub s ||
  match s with
  | EmptyString => false
  | String _ s' => contains sub s'
  end.

(** [s.endswith(suf)] *)
Fixpoint endswith (s suf : string) : bool :=
  String.eqb s suf ||
  match s with
  | EmptyString => false
  | String _ s' => endswith s' suf
  end.

(** [s.split(sep)] for a non-empty [sep]: a left-to-right scan for
    non-overlapping occurrences.  [skip] counts the characters of the
    occurrence just matched that are still to be passed over, and [cur]
    is the piece being collected. *)
Fixpoint split_go (sep : string) (skip : nat) (cur s : string) : list string :=
  match s with
  | EmptyString => [cur]
  | String c s' =>
      match skip with
      | S k => split_go sep k cur s'
      | O =>
          if String.prefix sep s
          then cur :: split_go sep (String.length sep - 1) EmptyString s'
          else split_go sep 0 (cur ++ String c EmptyString) s'
      end
  end.

Definition split (s sep : string) : list string := split_go sep 0 EmptyString s.

(** [xs[-1]]; [str.split] never returns the empty list. *)
Definition last_piece (xs : list string) : string := List.last xs EmptyString.

(** [s.replace(old, new)] for a non-empty [old]: every non-overlapping
    occurrence, scanning from the left. *)
Fixpoint replace_go (old new : string) (skip : nat) (s : string) : string :=
  match s with
  | EmptyString => EmptyString
  | String c s' =>
      match skip with
      | S k => replace_go old new k s'
      | O =>
          if String.prefix old s
          then new ++ replace_go old new (String.length old - 1) s'
          else String c (replace_go old new 0 s')
      end
  end.

Definition replace (s old new : string) : string := replace_go old new 0 s.

Fixpoint lstrip (s chars : string) : string :=
  match s with
  | EmptyString => EmptyString
  | String c s' => if char_in c chars then lstrip s' chars else s
  end.

Fixpoint rstrip (s chars : string) : string :=
  match s with
  | EmptyString => EmptyString
  | String c s' =>
      match rstrip s' chars with
      | EmptyString => if char_in c chars then EmptyString else String c EmptyString
      | r => String c r
      end
  end.

(** [s.strip(chars)] *)
Definition strip (s chars : string) : string := rstrip (lstrip s chars) chars.

(** [str(n)] for an [int]. *)
Definition str (n : Z) : string := NilZero.string_of_int (Z.to_int n).

(** [any(x in s for x in xs)] *)
Definition any_in (xs : list string) (s : string) : bool :=
  List.existsb (fun x => contains x s) xs.

(** [os.path.join(a, b)] (posixpath). *)
Definition path_join (a b : string) : string :=
  if startswith b "/" then b
  else if String.eqb a EmptyString || endswith a "/" then a ++ b
  else a ++ "/" ++ b.

(** [os.path.basename(p)]: the text after the last '/'. *)
Definition basename (p : string) : string := last_piece (split p "/").

End Py.

(** Python's [sorted] on strings: a stable merge sort by code point order. *)
Module StrOrder <: Orders.TotalLeBool.
Definition t := string.
Definition leb (x y : string) : bool := String.leb x y.
Definition leb_total : forall x y, leb x y = true \/ leb y x = true :=
  String.leb_total.
End StrOrder.

Module StrSort := Sort StrOrder.

Definition sorted (xs : list string) : list string := StrSort.sort xs.

(** ** Data model and external collaborators *)

(** A hub model descriptor ([ModelInfo]): [model.id], [model.downloads]. *)
Record ModelInfo := { id : string; downloads : Z }.

(** What a call that can raise gives back. *)
Inductive outcome (A : Type) : Type :=
| Returned (a : A)
| Raised (msg : string).
Arguments Returned {A} a.
Arguments Raised {A} msg.

(** Result of the external [huggingface-cli download] invocation made by
    [download_model]: the destination was already there, the tool exited
    with status 0, or [subprocess.run(check=True)] raised
    [CalledProcessError]. *)
Inductive fetch_status := AlreadyThere | FetchOk | FetchFailed.

Record Env := {
  (** [api.list_models(filter=gguf, sort=downloads, direction=-1, limit=100)] *)
  list_models : list ModelInfo;
  (** [api.list_repo_files(model_id)] *)
  list_repo_files : string -> outcome (list string);
  (** [os.path.exists(destination)] and the download tool's exit status,
      for [download_model(model_id, file_name, model_dir)] *)
  fetch : string -> string -> string -> fetch_status;
  (** [multiprocessing.cpu_count()] *)
  cpu_count : Z
}.

(** ** Candidate Filter: [get_trending_gguf_models] *)

Definition large_markers : list string := ["70b"; "30b"; "40b"; "65b"; "13b"].
Definition small_markers : list string := ["1b"; "2b"; "3b"; "5b"; "7b"; "8b"].

(** Lines 63-65: the [continue] is taken when this is [false].  A [None]
    or empty [categories] is falsy and disables the test. *)
Definition category_ok (categories : option (list string)) (m : ModelInfo) : bool :=
  match categories with
  | None | Some [] => true
  | Some cats =>
      List.existsb (fun cat => Py.contains (Py.lower cat) (Py.lower (id m))) cats
  end.

(** Lines 68-74: the large test runs first, then the small allow-list. *)
Definition size_ok (small_only : bool) (m : ModelInfo) : bool :=
  if small_only then
    if Py.any_in large_markers (Py.lower (id m)) then false
    else if negb (Py.any_in small_markers (Py.lower (id m))) then false
    else true
  else true.

(** The [for model in models] loop of lines 61-78, with [filtered_models]
    as accumulator; the length test that breaks the loop comes after the
    append. *)
Fixpoint filter_loop (max_models : Z) (small_only : bool)
    (categories : option (list string))
    (models filtered_models : list ModelInfo) : list ModelInfo :=
  match models with
  | [] => filtered_models
  | model :: rest =>
      if negb (category_ok categories model) then
        filter_loop max_models small_only categories rest filtered_models
      else if negb (size_ok small_only model) then
        filter_loop max_models small_only categories rest filtered_models
      else
        let filtered_models := (filtered_models ++ [model])%list in
        if (Z.of_nat (List.length filtered_models) >=? max_models)%Z
        then filtered_models
        else filter_loop max_models small_only categories rest filtered_models
  end.

Definition get_trending_gguf_models (env : Env) (max_models : Z)
    (small_only : bool) (categories : option (list string)) : list ModelInfo :=
  filter_loop max_models small_only categories (list_models env) [].

(** ** Artifact Resolver: [find_best_gguf_file] *)

Definition fallback_patterns : list string :=
  ["Q4_0"; "Q4_K"; "Q3_K"; "Q5_K"; "Q2_K"; "Q8_0"].

Definition is_gguf (f : string) : bool := Py.endswith f ".gguf".

(** [sorted(xs)[0]]; [None] stands for the [IndexError] of an empty list,
    which the [except Exception] of [find_best_gguf_file] would turn into
    the final [return None]. *)
Definition first_sorted (xs : list string) : option string := List.hd_error (sorted xs).

(** The [for pattern in ...] loop of lines 99-102.  [Some r] means the
    loop executed [return r]; [None] means it ran to its end. *)
Fixpoint try_patterns (patterns : list string) (gguf_files : list string)
  : option (option string) :=
  match patterns with
  | [] => None
  | pattern :: rest =>
      match List.filter (Py.contains pattern) gguf_files with
      | [] => try_patterns rest gguf_files
      | matches => Some (first_sorted matches)
      end
  end.

Definition best_of_listing (files : list string) : option string :=
  let q4_files := List.filter (fun f => is_gguf f && Py.contains "Q4_K_M" f) files in
  match q4_files with
  | _ :: _ => first_sorted q4_files
  | [] =>
      let gguf_files := List.filter is_gguf files in
      match gguf_files with
      | _ :: _ =>
          match try_patterns fallback_patterns gguf_files with
          | Some r => r
          | None => first_sorted gguf_files
          end
      | [] => None
      end
  end.

Definition find_best_gguf_file (env : Env) (model_id : string) : option string :=
  match list_repo_files env model_id with
  | Returned files => best_of_listing files
  | Raised _ => None
  end.

(** ** Name Normalizer: lines 258-267 of [main] *)

Definition keep_or_dash (c : ascii) : ascii :=
  if Py.isalnum c || Py.char_in c "-_" then c else "-"%char.

(** Lines 259-262. *)
Definition family_rewrite (model_name : string) : string :=
  if Py.contains "llama" model_name then
    "llama-" ++ Py.last_piece (Py.split model_name "llama")
  else if Py.contains "mistral" model_name then
    "mistral-" ++ Py.last_piece (Py.split model_name "mistral")
  else model_name.

(** Lines 265-267. *)
Definition clean_up (model_name : string) : string :=
  let model_name := Py.replace model_name "-gguf" "" in
  let model_name := Py.map_chars keep_or_dash model_name in
  Py.strip model_name "-_".

Definition simplified_model_name (model_id : string) : string :=
  let model_name := Py.lower (Py.last_piece (Py.split model_id "/")) in
  clean_up (family_rewrite model_name).

(** ** The configuration directory *)

Record FS := {
  files : gmap string string;   (** path |-> content *)
  trace : list (string * string)
    (** the writes made so far, oldest first: path and content written *)
}.

Definition path_exists (p : string) (st : FS) : bool :=
  bool_decide (is_Some (files st !! p)).

(** [open(p, "w").write(c)] *)
Definition write_file (p c : string) (st : FS) : FS :=
  {| files := <[p := c]> (files st); trace := (trace st ++ [(p, c)])%list |}.

(** [open(p, "r").read()] *)
Definition read_file (p : string) (st : FS) : outcome string :=
  match files st !! p with
  | Some c => Returned c
  | None => Raised "FileNotFoundError"
  end.

(** ** Config Emitter: [create_model_config] *)

Definition unlines (ls : list string) : string :=
  List.fold_right (fun l acc => l ++ Py.nl ++ acc) EmptyString ls.

Definition recommended_threads (cpu_cores : Z) : Z :=
  Z.max 2 (Z.min (cpu_cores / 2) 8).

Definition chat_template_lines : list string :=
  [ "template:";
    "  chat:";
    "    template: |";
    "      <s>{{- if .System }}";
    "      {{.System}}";
    "      {{- end }}";
    "      {{- range $i, $message := .Messages }}";
    "      {{- if eq $message.Role " ++ Py.dquote ++ "user" ++ Py.dquote ++ " }}";
    "      [INST] {{ $message.Content }} [/INST]";
    "      {{- else if eq $message.Role " ++ Py.dquote ++ "assistant" ++ Py.dquote ++ " }}";
    "      {{ $message.Content }}";
    "      {{- end }}";
    "      {{- end }}" ].

Definition config_content (cpu_cores : Z) (model_name model_file : string) : string :=
  unlines
    (List.app
     [ "name: " ++ model_name;
       "backend: llama-cpp";
       "parameters:";
       "  model: /models/" ++ model_file;
       "  context_size: 2048";
       "  threads: " ++ Py.str (recommended_threads cpu_cores);
       "  f16: true" ] chat_template_lines).

Definition config_path_of (config_dir model_name : string) : string :=
  Py.path_join config_dir (model_name ++ ".yaml").

(** Returns the new directory state and [config_path]. *)
Definition create_model_config (env : Env) (model_name model_file config_dir : string)
    (st : FS) : FS * string :=
  let cpu_cores := cpu_count env in
  let config_path := config_path_of config_dir model_name in
  (write_file config_path (config_content cpu_cores model_name model_file) st,
   config_path).

(** ** Fetcher: [download_model] *)

Definition download_model (env : Env) (model_id file_name model_dir : string)
  : option string :=
  let destination := Py.path_join model_dir (Py.basename file_name) in
  match fetch env model_id file_name model_dir with
  | AlreadyThere => Some destination
  | FetchOk => Some destination
  | FetchFailed => None
  end.

(** ** Alias Emitter: [create_openai_aliases] *)

Definition small_alias_markers : list string :=
  ["phi"; "gemma-2"; "mistral"; "llama-3-1b"].
Definition large_alias_markers : list string :=
  ["llama-3-8"; "mistral-7"; "llama-3.1-8"].

(** [[m for m in downloaded_models if any(x in m.lower() for x in markers)]] *)
Definition alias_candidates (markers : list string) (downloaded_models : list string)
  : list string :=
  List.filter (fun m => Py.any_in markers (Py.lower m)) downloaded_models.

(** Lines 182-197. *)
Definition alias_gpt35 (config_dir : string) (downloaded_models : list string)
    (st : FS) : outcome FS :=
  match alias_candidates small_alias_markers downloaded_models with
  | [] => Returned st
  | small_model :: _ =>
      let alias_path := Py.path_join config_dir "gpt-3.5-turbo.yaml" in
      let source_path := Py.path_join config_dir (small_model ++ ".yaml") in
      if path_exists source_path st then
        match read_file source_path st with
        | Raised e => Raised e
        | Returned config =>
            let config := Py.replace config ("name: " ++ small_model) "name: gpt-3.5-turbo" in
            Returned (write_file alias_path config st)
        end
      else Returned st
  end.

(** Lines 200-218. *)
Definition alias_gpt4 (config_dir : string) (downloaded_models : list string)
    (st : FS) : outcome FS :=
  match alias_candidates large_alias_markers downloaded_models with
  | [] => Returned st
  | large_model :: _ =>
      let alias_path := Py.path_join config_dir "gpt-4.yaml" in
      let source_path := Py.path_join config_dir (large_model ++ ".yaml") in
      if path_exists source_path st then
        match read_file source_path st with
        | Raised e => Raised e
        | Returned config =>
            let config := Py.replace config ("name: " ++ large_model) "name: gpt-4" in
            let config := Py.replace config "context_size: 2048" "context_size: 4096" in
            Returned (write_file alias_path config st)
        end
      else Returned st
  end.

Definition create_openai_aliases (config_dir : string) (downloaded_models : list string)
    (st : FS) : outcome FS :=
  match downloaded_models with
  | [] => Returned st
  | _ :: _ =>
      match alias_gpt35 config_dir downloaded_models st with
      | Raised e => Raised e
      | Returned st => alias_gpt4 config_dir downloaded_models st
      end
  end.

(** ** [main] *)

Record Args := {
  num_models : Z;
  small_only : bool;
  output_dir : string;
  config_dir : string;
  create_aliases : bool;
  list_only : bool;
  include_categories : option string
}.

(** ASCII white space, as removed by [c.strip()]. *)
Definition whitespace : string :=
  List.fold_right (fun n acc => String (ascii_of_nat n) acc) EmptyString
    [9; 10; 11; 12; 13; 28; 29; 30; 31; 32]%nat.

(** Lines 228-230. *)
Definition parse_categories (include_categories : option string) : option (list string) :=
  match include_categories with
  | None => None
  | Some EmptyString => None
  | Some s => Some (List.map (fun c => Py.strip c whitespace) (Py.split s ","))
  end.

(** The run's state while the models are processed: the configuration
    directory and [downloaded_model_names]. *)
Definition run_state : Type := FS * list string.

(** One iteration of the [for model in models] loop, lines 250-278.  The
    two [continue] statements leave the state as it is. *)
Definition process_model (env : Env) (args : Args) (rs : run_state) (model : ModelInfo)
  : run_state :=
  let '(st, downloaded_model_names) := rs in
  match find_best_gguf_file env (id model) with
  | None => rs
  | Some EmptyString => rs
  | Some file_name =>
      let model_name := simplified_model_name (id model) in
      match download_model env (id model) file_name (output_dir args) with
      | None => rs
      | Some EmptyString => rs
      | Some _ =>
          let model_file := Py.basename file_name in
          let '(st, config_path) :=
            create_model_config env model_name model_file (config_dir args) st in
          (st, (downloaded_model_names ++ [model_name])%list)
      end
  end.

Definition process_models (env : Env) (args : Args) (models : list ModelInfo)
    (rs : run_state) : run_state :=
  List.fold_left (process_model env args) models rs.

Definition main (env : Env) (args : Args) (st : FS) : outcome run_state :=
  let categories := parse_categories (include_categories args) in
  let models :=
    get_trending_gguf_models env (num_models args) (small_only args) categories in
  if list_only args then Returned (st, [])
  else
    let '(st, downloaded_model_names) := process_models env args models (st, []) in
    match create_aliases args, downloaded_model_names with
    | true, _ :: _ =>
        match create_openai_aliases (config_dir args) downloaded_model_names st with
        | Raised e => Raised e
        | Returned st => Returned (st, downloaded_model_names)
        end
    | _, _ => Returned (st, downloaded_model_names)
    end.

(** * Vocabulary of the statements *)

(** [r] is the lexicographically first file of [files] that satisfies [P]. *)
Definition lex_first (P : string -> bool) (files : list string) (r : string) : Prop :=
  In r files /\ P r = true /\
  forall f, In f files -> P f = true -> String.leb r f = true.

(** A [.gguf] file whose name contains [marker]. *)
Definition gguf_with (marker f : string) : bool := is_gguf f && Py.contains marker f.

(** [marker] occurs in [s] when case is ignored: some substring of [s]
    lower-cases to [marker]. *)
Definition occurs_ci (marker s : string) : Prop :=
  exists pre mid post, s = pre ++ mid ++ post /\ Py.lower mid = marker.

(** The id contains one of [markers], case-insensitively. *)
Definition has_marker (markers : list string) (s : string) : Prop :=
  exists x, In x markers /\ occurs_ci x s.

(** A one-core host whose hub lists [models] and serves no files. *)
Definition hub_of (models : list ModelInfo) : Env :=
  {| list_models := models;
     list_repo_files := fun _ => Raised "unused";
     fetch := fun _ _ _ => FetchFailed;
     cpu_count := 1 |}.

Fixpoint all_chars (P : ascii -> bool) (s : string) : bool :=
  match s with
  | EmptyString => true
  | String c s' => P c && all_chars P s'
  end.

(** The characters the clean-up keeps: alphanumeric, '-' or '_'. *)
Definition name_char (c : ascii) : bool := Py.isalnum c || Py.char_in c "-_".

(** Lower-case letters, digits, '-' and '_': the characters of a name that
    is already lower-cased and cleaned. *)
Definition norm_char (c : ascii) : bool :=
  Py.isdigit c || Py.islower c || Py.char_in c "-_".

Definition starts_in (s chars : string) : bool :=
  match s with
  | EmptyString => false
  | String c _ => Py.char_in c chars
  end.

Fixpoint ends_in (s chars : string) : bool :=
  match s with
  | EmptyString => false
  | String c s' =>
      match s' with
      | EmptyString => Py.char_in c chars
      | String _ _ => ends_in s' chars
      end
  end.

(** The gpt-4 markers that can match a normalized name. *)
Definition reachable_large_alias_markers : list string := ["llama-3-8"; "mistral-7"].

(** What [os.path.join] puts in front of a relative second component. *)
Definition dir_prefix (a : string) : string :=
  if String.eqb a EmptyString || Py.endswith a "/" then a else a ++ "/".

(** The content starts with the line [name: <stem>]. *)
Definition declares_name (content stem : string) : bool :=
  Py.startswith content ("name: " ++ stem ++ Py.nl).

(** A write of a configuration file whose declared name is the stem of
    its file name, [<config_dir>/<stem>.yaml]. *)
Definition well_named (config_dir : string) (ev : string * string) : Prop :=
  exists stem,
    Py.contains "/" stem = false /\
    fst ev = Py.path_join config_dir (stem ++ ".yaml") /\
    declares_name (snd ev) stem = true.

(** Each downloaded name has a configuration file that declares it. *)
Definition names_declared (config_dir : string) (names : list string) (st : FS) : Prop :=
  forall n, In n names ->
    exists c, files st !! config_path_of config_dir n = Some c /\
              declares_name c n = true.

(** The name has only the characters the clean-up keeps. *)
Definition normalized (name : string) : Prop := all_chars name_char name = true.

(** What an alias step leaves behind: at most one write, well named. *)
Definition alias_step_ok (config_dir : string) (names : list string)
    (st : FS) (r : outcome FS) : Prop :=
  exists st' ws,
    r = Returned st' /\
    trace st' = (trace st ++ ws)%list /\
    List.Forall (well_named config_dir) ws /\
    names_declared config_dir names st'.

(** The invariant of the processing loop, relative to the directory state
    [st0] the run started from. *)
Definition run_inv (config_dir : string) (st0 : FS) (rs : run_state) : Prop :=
  (exists ws, trace (fst rs) = (trace st0 ++ ws)%list /\
              List.Forall (well_named config_dir) ws) /\
  List.Forall normalized (snd rs) /\
  names_declared config_dir (snd rs) (fst rs).

(** Why a model is skipped: the listing call raised, the resolver found no
    suitable file, or the download reported failure. *)
Definition skip_cause (env : Env) (args : Args) (model : ModelInfo) : Prop :=
  (exists msg, list_repo_files env (id model) = Raised msg) \/
  find_best_gguf_file env (id model) = None \/
  (exists file_name,
     find_best_gguf_file env (id model) = Some file_name /\
     fetch env (id model) file_name (output_dir args) = FetchFailed).

Definition gpt35_path (config_dir : string) : string :=
  Py.path_join config_dir "gpt-3.5-turbo.yaml".
Definition gpt4_path (config_dir : string) : string :=
  Py.path_join config_dir "gpt-4.yaml".

(** No write of [ws] goes to path [p]. *)
Definition no_write_to (p : string) (ws : list (string * string)) : Prop :=
  forall ev, In ev ws -> fst ev <> p.

(** ** A concrete hub, host and invocation *)

Definition demo_files : list string :=
  ["model-Q5_K-v1.gguf"; "model-Q5_K-v2.gguf"; "model-Q3_K.gguf"].

Definition demo_env : Env :=
  {| list_models :=
       [ {| id := "TheBloke/Llama-2-13B-7b-GGUF"; downloads := 900 |};
         {| id := "org/Phi-3-mini-GGUF"; downloads := 700 |};
         {| id := "org/broken"; downloads := 10 |} ];
     list_repo_files := fun model_id =>
       if String.eqb model_id "org/Phi-3-mini-GGUF" then Returned demo_files
       else Raised "RepositoryNotFoundError";
     fetch := fun _ _ _ => FetchOk;
     cpu_count := 32 |}.

Definition demo_args : Args :=
  {| num_models := 5; small_only := false;
     output_dir := "/opt/localai/models"; config_dir := "/opt/localai/config";
     create_aliases := true; list_only := false; include_categories := None |}.

Definition empty_dir : FS := {| files := ∅; trace := [] |}.

(** ** Vocabulary of the further properties *)

(** The test a hub model has to pass to be appended by the loop of
    [get_trending_gguf_models] (lines 63-74). *)
Definition qualifies (small_only : bool) (categories : option (list string))
    (m : ModelInfo) : bool :=
  category_ok categories m && size_ok small_only m.

(** The number of models the loop lets through before it breaks. *)
Definition effective_cap (max_models : Z) : nat := Z.to_nat (Z.max 1 max_models).

Definition not_upper (c : ascii) : bool := negb (Py.isupper c).
Definition not_alnum (c : ascii) : bool := negb (Py.isalnum c).
Definition not_slash (c : ascii) : bool := negb (Ascii.eqb c "/").

(** The hub of [demo_env] with the file listing served in reverse. *)
Definition demo_env_reversed : Env :=
  {| list_models := list_models demo_env;
     list_repo_files := fun model_id =>
       if String.eqb model_id "org/Phi-3-mini-GGUF" then Returned (List.rev demo_files)
       else Raised "RepositoryNotFoundError";
     fetch := fetch demo_env;
     cpu_count := cpu_count demo_env |}.

(** The lines of a configuration file below the name line, with the
    context size as a parameter; [config_content] is the name line
    followed by [config_tail "2048"]. *)
Definition config_tail (context_size : string) (cpu_cores : Z) (model_file : string)
  : string :=
  unlines
    (List.app
     [ "backend: llama-cpp";
       "parameters:";
       "  model: /models/" ++ model_file;
       "  context_size: " ++ context_size;
       "  threads: " ++ Py.str (recommended_threads cpu_cores);
       "  f16: true" ] chat_template_lines).

(** The configuration text for a given context size. *)
Definition config_text (context_size : string) (cpu_cores : Z)
    (model_name model_file : string) : string :=
  ("name: " ++ model_name) ++ Py.nl ++ config_tail context_size cpu_cores model_file.

(** [config_tail] in three parts: the text before the model file name,
    the file name, and the text from the end of that line on. *)
Definition config_head : string :=
  "backend: llama-cpp" ++ Py.nl ++ "parameters:" ++ Py.nl ++ "  model: /models/".

Definition config_foot (context_size : string) (cpu_cores : Z) : string :=
  Py.nl ++
  unlines
    (List.app
     [ "  context_size: " ++ context_size;
       "  threads: " ++ Py.str (recommended_threads cpu_cores);
       "  f16: true" ] chat_template_lines).

(** A configuration directory that holds the configuration of one model. *)
Definition dir_with (config_dir model_name model_file : string) : FS :=
  write_file (Py.path_join config_dir (model_name ++ ".yaml"))
    (config_content 8 model_name model_file) empty_dir.

(** * Properties *)

(** ** The primitives and the pipeline on examples *)

Example py_split_1 : Py.split "a/b/c" "/" = ["a"; "b"; "c"].
Proof. reflexivity. Qed.
Example py_split_2 : Py.split "allama" "llama" = ["a"; ""].
Proof. reflexivity. Qed.
Example py_replace_1 : Py.replace "x-gguf-y-gguf" "-gguf" "" = "x-y".
Proof. reflexivity. Qed.
Example py_strip_1 : Py.strip "-_a-b_-" "-_" = "a-b".
Proof. reflexivity. Qed.
Example py_str_1 : Py.str 0 = "0" /\ Py.str 8 = "8" /\ Py.str 16 = "16".
Proof. repeat split. Qed.
Example py_sorted_1 : sorted ["b"; "a"; "B"; "ab"] = ["B"; "a"; "ab"; "b"].
Proof. reflexivity. Qed.
Example py_lower_1 : Py.lower "TheBloke/Llama-3-8B.Q4_K_M" = "thebloke/llama-3-8b.q4_k_m".
Proof. reflexivity. Qed.

Example resolver_ex1 :
  best_of_listing ["model-Q4_K_M.gguf"; "model-Q4_0.gguf"; "model-Q8_0.gguf"]
  = Some "model-Q4_K_M.gguf".
Proof. reflexivity. Qed.
Example resolver_ex2 :
  best_of_listing ["model-Q5_K-v1.gguf"; "model-Q5_K-v2.gguf"; "model-Q3_K.gguf"]
  = Some "model-Q3_K.gguf".
Proof. reflexivity. Qed.
Example resolver_ex3 : best_of_listing ["readme.md"] = None.
Proof. reflexivity. Qed.

Example normalizer_ex1 :
  simplified_model_name "TheBloke/Llama-3-8B-Instruct-GGUF" = "llama--3-8b-instruct".
Proof. reflexivity. Qed.
Example normalizer_ex2 :
  simplified_model_name "microsoft/Phi-3-mini-4k-instruct-gguf" = "phi-3-mini-4k-instruct".
Proof. reflexivity. Qed.
Example normalizer_ex3 :
  simplified_model_name "QuantFactory/Meta-Llama3.1-8B-GGUF" = "llama-3-1-8b".
Proof. reflexivity. Qed.


(** ** Strings: order, prefixes, occurrences *)

Section StringOrder.

Lemma string_leb_trans (a b c : string) :
  String.leb a b = true -> String.leb b c = true -> String.leb a c = true.
Proof.
  unfold String.leb. revert b c.
  induction a as [|x a IH]; intros [|y b] [|z c]; simpl; try easy.
  unfold Ascii.compare.
  destruct (N.compare_spec (N_of_ascii x) (N_of_ascii y));
    destruct (N.compare_spec (N_of_ascii y) (N_of_ascii z));
    destruct (N.compare_spec (N_of_ascii x) (N_of_ascii z));
    try easy; try lia; apply IH.
Qed.

Lemma string_leb_refl (a : string) : String.leb a a = true.
Proof.
  destruct (String.leb_total a a); assumption.
Qed.

#[local] Instance leb_transitive : Transitive (fun x y => is_true (StrOrder.leb x y)).
Proof. intros a b c. apply string_leb_trans. Qed.

(** The head of [sorted xs] is a least element of [xs]. *)
Lemma first_sorted_least (xs : list string) (r : string) :
  first_sorted xs = Some r ->
  In r xs /\ forall y, In y xs -> String.leb r y = true.
Proof.
  unfold first_sorted, sorted. intros Hhd.
  pose proof (StrSort.Permuted_sort xs) as Hperm.
  pose proof (StrSort.StronglySorted_sort xs leb_transitive) as Hsorted.
  destruct (StrSort.sort xs) as [|h tl] eqn:E; [discriminate|].
  injection Hhd as <-. split.
  - eapply Permutation_in; [symmetry; exact Hperm | left; reflexivity].
  - intros y Hy. apply (Permutation_in _ Hperm) in Hy.
    destruct Hy as [<- | Hy]; [apply string_leb_refl|].
    apply StronglySorted_inv in Hsorted as [_ Hall].
    rewrite List.Forall_forall in Hall. exact (Hall y Hy).
Qed.

Lemma first_sorted_nonempty (x : string) (xs : list string) :
  exists r, first_sorted (x :: xs) = Some r.
Proof.
  unfold first_sorted, sorted.
  pose proof (StrSort.Permuted_sort (x :: xs)) as Hperm.
  destruct (StrSort.sort (x :: xs)) as [|h tl]; [|eauto].
  apply Permutation_sym, Permutation_nil in Hperm. discriminate.
Qed.

End StringOrder.

(** ** Artifact Resolver *)

Lemma filter_nil_existsb {A : Type} (P : A -> bool) (l : list A) :
  List.filter P l = [] <-> List.existsb P l = false.
Proof.
  induction l as [|a l IH]; simpl; [tauto|].
  destruct (P a); simpl; [split; discriminate | exact IH].
Qed.

Lemma filter_cons_existsb {A : Type} (P : A -> bool) (l : list A) :
  List.existsb P l = true -> exists a l', List.filter P l = a :: l'.
Proof.
  intros H. destruct (List.filter P l) as [|a l'] eqn:E; [|eauto].
  apply filter_nil_existsb in E. congruence.
Qed.

Lemma existsb_filter_and {A : Type} (P Q : A -> bool) (l : list A) :
  List.existsb Q (List.filter P l) = List.existsb (fun a => P a && Q a) l.
Proof.
  induction l as [|a l IH]; simpl; [reflexivity|].
  destruct (P a); simpl; rewrite IH; reflexivity.
Qed.

Lemma first_sorted_filter (P : string -> bool) (files : list string) :
  List.existsb P files = true ->
  exists r, first_sorted (List.filter P files) = Some r /\ lex_first P files r.
Proof.
  intros H. destruct (filter_cons_existsb P files H) as (a & l' & E).
  destruct (first_sorted_nonempty a l') as [r Hr]. rewrite <- E in Hr.
  exists r. split; [exact Hr|].
  apply first_sorted_least in Hr as [Hin Hle].
  apply List.filter_In in Hin as [Hin HP].
  repeat split; try assumption.
  intros f Hf HPf. apply Hle, List.filter_In. split; assumption.
Qed.

Lemma first_sorted_filter2 (P Q : string -> bool) (files : list string) :
  List.existsb (fun f => P f && Q f) files = true ->
  exists r, first_sorted (List.filter Q (List.filter P files)) = Some r /\
            lex_first (fun f => P f && Q f) files r.
Proof.
  intros H. rewrite <- existsb_filter_and in H.
  destruct (first_sorted_filter Q _ H) as (r & Hr & Hin & HQ & Hle).
  apply List.filter_In in Hin as [Hin HP].
  exists r. split; [exact Hr|]. repeat split; try assumption.
  - rewrite HP, HQ. reflexivity.
  - intros f Hf HPQ. apply andb_prop in HPQ as [HPf HQf].
    apply Hle; [apply List.filter_In; split; assumption | assumption].
Qed.

(** The loop stops at the first pattern with a match. *)
Lemma try_patterns_first_match (gguf_files earlier later : list string) (marker : string) :
  (forall e, In e earlier -> List.existsb (Py.contains e) gguf_files = false) ->
  List.existsb (Py.contains marker) gguf_files = true ->
  try_patterns (earlier ++ marker :: later) gguf_files
  = Some (first_sorted (List.filter (Py.contains marker) gguf_files)).
Proof.
  intros Hearlier Hm. induction earlier as [|e earlier IH]; simpl.
  - destruct (filter_cons_existsb _ _ Hm) as (a & l' & ->). reflexivity.
  - assert (He : List.filter (Py.contains e) gguf_files = []).
    { apply filter_nil_existsb, Hearlier. left; reflexivity. }
    rewrite He. apply IH. intros e' He'. apply Hearlier. right; exact He'.
Qed.

Lemma try_patterns_no_match (gguf_files patterns : list string) :
  (forall e, In e patterns -> List.existsb (Py.contains e) gguf_files = false) ->
  try_patterns patterns gguf_files = None.
Proof.
  induction patterns as [|e patterns IH]; intros H; simpl; [reflexivity|].
  assert (He : List.filter (Py.contains e) gguf_files = []).
  { apply filter_nil_existsb, H. left; reflexivity. }
  rewrite He. apply IH. intros e' He'. apply H. right; exact He'.
Qed.

(** C1. The resolver's priority.  When the listing call raises, the result
    is [None].  Otherwise, on the listing [files]: (1) if some [.gguf] file
    contains "Q4_K_M", the result is the lexicographically first such file;
    (2) if none does, the markers Q4_0, Q4_K, Q3_K, Q5_K, Q2_K, Q8_0 are
    tried in that order over the [.gguf] files, and the result is the
    lexicographically first file matching the first marker that has a
    match; (3) if no marker matches but a [.gguf] file exists, the result
    is the lexicographically first [.gguf] file; (4) with no [.gguf] file
    the result is [None]. *)
Theorem find_best_gguf_file_priority (env : Env) (model_id : string) :
  match list_repo_files env model_id with
  | Raised _ => find_best_gguf_file env model_id = None
  | Returned files =>
      (List.existsb (gguf_with "Q4_K_M") files = true ->
       exists r, find_best_gguf_file env model_id = Some r /\
                 lex_first (gguf_with "Q4_K_M") files r)
      /\
      (List.existsb (gguf_with "Q4_K_M") files = false ->
       forall earlier marker later,
         ["Q4_0"; "Q4_K"; "Q3_K"; "Q5_K"; "Q2_K"; "Q8_0"] = (earlier ++ marker :: later)%list ->
         (forall e, In e earlier -> List.existsb (gguf_with e) files = false) ->
         List.existsb (gguf_with marker) files = true ->
         exists r, find_best_gguf_file env model_id = Some r /\
                   lex_first (gguf_with marker) files r)
      /\
      (List.existsb (gguf_with "Q4_K_M") files = false ->
       (forall e, In e ["Q4_0"; "Q4_K"; "Q3_K"; "Q5_K"; "Q2_K"; "Q8_0"] ->
                  List.existsb (gguf_with e) files = false) ->
       List.existsb is_gguf files = true ->
       exists r, find_best_gguf_file env model_id = Some r /\ lex_first is_gguf files r)
      /\
      (List.existsb is_gguf files = false -> find_best_gguf_file env model_id = None)
  end.
Proof.
  unfold find_best_gguf_file.
  destruct (list_repo_files env model_id) as [files|msg]; [|reflexivity].
  unfold best_of_listing.
  assert (Hgguf : forall m, List.existsb (gguf_with m) files = true ->
                            List.existsb is_gguf files = true).
  { intros m H. apply List.existsb_exists in H as (f & Hf & Hm).
    apply List.existsb_exists. exists f. split; [assumption|].
    apply andb_prop in Hm. tauto. }
  repeat split.
  - intros H.
    destruct (first_sorted_filter _ _ H) as (r & Hr & Hlex).
    destruct (filter_cons_existsb _ _ H) as (a & l' & E).
    change (fun f => is_gguf f && Py.contains "Q4_K_M" f) with (gguf_with "Q4_K_M").
    rewrite E, <- E. eauto.
  - intros Hno earlier marker later Hsplit Hearlier Hm.
    change (fun f => is_gguf f && Py.contains "Q4_K_M" f) with (gguf_with "Q4_K_M").
    apply filter_nil_existsb in Hno. rewrite Hno.
    destruct (filter_cons_existsb _ _ (Hgguf _ Hm)) as (a & l' & E).
    rewrite E, <- E. unfold fallback_patterns. rewrite Hsplit.
    rewrite try_patterns_first_match.
    + apply (first_sorted_filter2 is_gguf (Py.contains marker)). exact Hm.
    + intros e He. rewrite existsb_filter_and. apply Hearlier, He.
    + rewrite existsb_filter_and. exact Hm.
  - intros Hno Hnone Hsome.
    change (fun f => is_gguf f && Py.contains "Q4_K_M" f) with (gguf_with "Q4_K_M").
    apply filter_nil_existsb in Hno. rewrite Hno.
    destruct (filter_cons_existsb _ _ Hsome) as (a & l' & E).
    rewrite E, <- E. rewrite try_patterns_no_match.
    + apply first_sorted_filter. exact Hsome.
    + intros e He. rewrite existsb_filter_and. apply Hnone, He.
  - intros Hnone.
    assert (Hq : List.existsb (gguf_with "Q4_K_M") files = false).
    { destruct (List.existsb (gguf_with "Q4_K_M") files) eqn:E; [|reflexivity].
      rewrite (Hgguf _ E) in Hnone. discriminate. }
    change (fun f => is_gguf f && Py.contains "Q4_K_M" f) with (gguf_with "Q4_K_M").
    apply filter_nil_existsb in Hq, Hnone. rewrite Hq, Hnone. reflexivity.
Qed.

(** ** Occurrences, case-insensitively *)

Lemma lower_app (a b : string) : Py.lower (a ++ b) = Py.lower a ++ Py.lower b.
Proof.
  induction a as [|c a IH]; simpl; [reflexivity|].
  unfold Py.lower in *. simpl. rewrite IH. reflexivity.
Qed.

Lemma lower_app_inv (s a b : string) :
  Py.lower s = a ++ b ->
  exists s1 s2, s = s1 ++ s2 /\ Py.lower s1 = a /\ Py.lower s2 = b.
Proof.
  revert s. induction a as [|c a IH]; intros s H; simpl in H.
  - exists EmptyString, s. auto.
  - destruct s as [|d s]; [discriminate|].
    unfold Py.lower in H. simpl in H. injection H as Hc Hs.
    destruct (IH s Hs) as (s1 & s2 & -> & H1 & H2).
    exists (String d s1), s2. repeat split; [|exact H2].
    unfold Py.lower. simpl. rewrite Hc. f_equal. exact H1.
Qed.

Lemma prefix_app (x s : string) :
  String.prefix x s = true <-> exists post, s = x ++ post.
Proof.
  revert s. induction x as [|c x IH]; intros s.
  - split; [eauto | intros _; destruct s; reflexivity].
  - destruct s as [|d s]; simpl.
    + split; [discriminate | intros [post H]; discriminate].
    + destruct (Ascii.ascii_dec c d) as [->|Hne].
      * rewrite IH. split; intros [post H]; exists post.
        -- rewrite H. reflexivity.
        -- injection H as H. exact H.
      * split; [discriminate | intros [post H]; injection H as H _; congruence].
Qed.

Lemma contains_app (x s : string) :
  Py.contains x s = true <-> exists pre post, s = pre ++ x ++ post.
Proof.
  induction s as [|c s IH].
  - cbn [Py.contains]. rewrite orb_false_r, prefix_app. split.
    + intros [post H]. exists EmptyString, post. exact H.
    + intros (pre & post & H). destruct pre; simpl in H; [eauto|discriminate].
  - cbn [Py.contains]. rewrite orb_true_iff, IH, prefix_app. split.
    + intros [[post H] | (pre & post & H)].
      * exists EmptyString, post. exact H.
      * exists (String c pre), post. simpl. rewrite H. reflexivity.
    + intros (pre & post & H). destruct pre as [|d pre]; simpl in H.
      * left. eauto.
      * right. injection H as _ H. eauto.
Qed.

Lemma contains_lower_occurs_ci (marker s : string) :
  Py.contains marker (Py.lower s) = true <-> occurs_ci marker s.
Proof.
  rewrite contains_app. split.
  - intros (pre & post & H).
    apply lower_app_inv in H as (s1 & s2 & -> & H1 & H2).
    apply lower_app_inv in H2 as (s3 & s4 & -> & H3 & H4).
    exists s1, s3, s4. auto.
  - intros (pre & mid & post & -> & H).
    exists (Py.lower pre), (Py.lower post). rewrite !lower_app, H. reflexivity.
Qed.

Lemma any_in_lower_has_marker (markers : list string) (s : string) :
  Py.any_in markers (Py.lower s) = true <-> has_marker markers s.
Proof.
  unfold Py.any_in, has_marker. rewrite List.existsb_exists.
  split; intros (x & Hx & H); exists x; (split; [exact Hx|]);
    apply contains_lower_occurs_ci; exact H.
Qed.

(** ** Candidate Filter *)

(** What the loop of [get_trending_gguf_models] appends is kept by both
    filters and comes from the models scanned. *)
Lemma filter_loop_In (max_models : Z) (small_only : bool)
    (categories : option (list string)) (models acc : list ModelInfo) (m : ModelInfo) :
  In m (filter_loop max_models small_only categories models acc) ->
  In m acc \/
  (In m models /\ category_ok categories m = true /\ size_ok small_only m = true).
Proof.
  revert acc. induction models as [|x models IH]; intros acc H; simpl in H; [auto|].
  destruct (category_ok categories x) eqn:Hc; simpl in H.
  2:{ destruct (IH _ H) as [?|(? & ? & ?)]; [auto | right; simpl; auto]. }
  destruct (size_ok small_only x) eqn:Hs; simpl in H.
  2:{ destruct (IH _ H) as [?|(? & ? & ?)]; [auto | right; simpl; auto]. }
  assert (Hacc : In m (acc ++ [x])%list -> In m acc \/
            (In m (x :: models) /\ category_ok categories m = true /\
             size_ok small_only m = true)).
  { intros Hin. apply List.in_app_or in Hin as [?|[<-|[]]]; [auto|].
    right. simpl. auto. }
  destruct (Z.of_nat (List.length (acc ++ [x])%list) >=? max_models)%Z; [auto|].
  destruct (IH _ H) as [?|(? & ? & ?)]; [auto | right; simpl; auto].
Qed.

Lemma size_ok_true_iff (m : ModelInfo) :
  size_ok true m = true <->
  has_marker small_markers (id m) /\ ~ has_marker large_markers (id m).
Proof.
  unfold size_ok. rewrite <- !any_in_lower_has_marker.
  destruct (Py.any_in large_markers (Py.lower (id m)));
    destruct (Py.any_in small_markers (Py.lower (id m))); simpl;
    intuition congruence.
Qed.

(** C2. With [small_only] set, the size filter is a strict allow-list
    whose large test comes first: an id that contains a large marker
    (case-insensitively) is rejected and is not in the output, whatever
    small markers it contains; an id that contains no small marker is
    rejected and is not in the output; and the ids that pass are exactly
    those with a small marker and no large marker. *)
Theorem size_filter_strict_allow_list (env : Env) (max_models : Z)
    (categories : option (list string)) (m : ModelInfo) :
  (has_marker large_markers (id m) ->
   size_ok true m = false /\
   ~ In m (get_trending_gguf_models env max_models true categories))
  /\
  (~ has_marker small_markers (id m) ->
   size_ok true m = false /\
   ~ In m (get_trending_gguf_models env max_models true categories))
  /\
  (size_ok true m = true <->
   has_marker small_markers (id m) /\ ~ has_marker large_markers (id m)).
Proof.
  assert (Hout : size_ok true m = false ->
                 ~ In m (get_trending_gguf_models env max_models true categories)).
  { intros Hs Hin. apply filter_loop_In in Hin as [[]|(_ & _ & Hok)]. congruence. }
  pose proof (size_ok_true_iff m) as Hiff.
  assert (Hrej : ~ (has_marker small_markers (id m) /\ ~ has_marker large_markers (id m)) ->
                 size_ok true m = false).
  { intros Hn. destruct (size_ok true m); [|reflexivity]. tauto. }
  split; [|split].
  - intros Hl. assert (Hs : size_ok true m = false) by (apply Hrej; tauto). auto.
  - intros Hl. assert (Hs : size_ok true m = false) by (apply Hrej; tauto). auto.
  - exact Hiff.
Qed.

Lemma filter_loop_sublist (max_models : Z) (small_only : bool)
    (categories : option (list string)) (models acc : list ModelInfo) :
  exists kept,
    filter_loop max_models small_only categories models acc = (acc ++ kept)%list /\
    kept `sublist_of` models.
Proof.
  revert acc. induction models as [|x models IH]; intros acc; simpl.
  - exists []. rewrite List.app_nil_r. split; [reflexivity | constructor].
  - destruct (category_ok categories x); simpl.
    2:{ destruct (IH acc) as (kept & -> & Hsub). exists kept.
        split; [reflexivity | by apply sublist_cons]. }
    destruct (size_ok small_only x); simpl.
    2:{ destruct (IH acc) as (kept & -> & Hsub). exists kept.
        split; [reflexivity | by apply sublist_cons]. }
    destruct (Z.of_nat (List.length (acc ++ [x])%list) >=? max_models)%Z.
    + exists [x]. split; [reflexivity|]. apply sublist_skip, sublist_nil_l.
    + destruct (IH (acc ++ [x])%list) as (kept & -> & Hsub). exists (x :: kept).
      rewrite <- List.app_assoc. split; [reflexivity | by apply sublist_skip].
Qed.

Lemma filter_loop_length (max_models : Z) (small_only : bool)
    (categories : option (list string)) (models acc : list ModelInfo) :
  (Z.of_nat (List.length acc) < Z.max max_models 1)%Z ->
  (Z.of_nat (List.length (filter_loop max_models small_only categories models acc))
   <= Z.max max_models 1)%Z.
Proof.
  revert acc. induction models as [|x models IH]; intros acc Hacc; simpl; [lia|].
  destruct (category_ok categories x); simpl; [|by apply IH].
  destruct (size_ok small_only x); simpl; [|by apply IH].
  assert (Hlen : List.length (acc ++ [x])%list = S (List.length acc)).
  { rewrite List.length_app. simpl. lia. }
  destruct (Z.geb_spec (Z.of_nat (List.length (acc ++ [x])%list)) max_models) as [Hge|Hlt].
  - rewrite Hlen in *. lia.
  - apply IH. rewrite Hlen in *. lia.
Qed.

(** The output never re-orders: it is a subsequence of the hub's list. *)
Lemma get_trending_gguf_models_sublist (env : Env) (max_models : Z)
    (small_only : bool) (categories : option (list string)) :
  get_trending_gguf_models env max_models small_only categories
    `sublist_of` list_models env.
Proof.
  unfold get_trending_gguf_models.
  destruct (filter_loop_sublist max_models small_only categories (list_models env) [])
    as (kept & -> & Hsub). exact Hsub.
Qed.

(** The cap holds from [max_models = 1] on; below that, one model still
    gets through, because the length test follows the append. *)
Lemma get_trending_gguf_models_length (env : Env) (max_models : Z)
    (small_only : bool) (categories : option (list string)) :
  (Z.of_nat (List.length (get_trending_gguf_models env max_models small_only categories))
   <= Z.max max_models 1)%Z.
Proof.
  unfold get_trending_gguf_models. apply filter_loop_length. simpl. lia.
Qed.

(** C3, at [--num-models 0]: with a requested maximum of 0 and one model
    on the hub, the filter returns that model, so the output is longer
    than the maximum. *)
Theorem get_trending_gguf_models_exceeds_zero_max :
  let model := {| id := "org/phi-2-GGUF"; downloads := 10 |} in
  get_trending_gguf_models (hub_of [model]) 0 false None = [model] /\
  (Z.of_nat (List.length (get_trending_gguf_models (hub_of [model]) 0 false None)) > 0)%Z.
Proof. split; reflexivity. Qed.

(** ** Name Normalizer *)

Section AllChars.

Variable P : ascii -> bool.

Lemma all_chars_prefix (x s : string) :
  String.prefix x s = true -> all_chars P s = true -> all_chars P x = true.
Proof.
  revert s. induction x as [|c x IH]; intros [|d s]; simpl; try easy.
  destruct (Ascii.ascii_dec c d) as [->|]; [|discriminate].
  intros Hp Hs. apply andb_prop in Hs as [Hd Hs].
  rewrite Hd. simpl. eapply IH; eassumption.
Qed.

Lemma all_chars_contains (x s : string) :
  Py.contains x s = true -> all_chars P s = true -> all_chars P x = true.
Proof.
  induction s as [|c s IH]; cbn [Py.contains].
  - rewrite orb_false_r. apply all_chars_prefix.
  - intros H Hs. apply orb_prop in H as [H|H].
    + eapply all_chars_prefix; eassumption.
    + simpl in Hs. apply andb_prop in Hs as [_ Hs]. auto.
Qed.

Lemma all_chars_app (a b : string) :
  all_chars P (a ++ b) = all_chars P a && all_chars P b.
Proof.
  induction a as [|c a IH]; simpl; [reflexivity|].
  rewrite IH, andb_assoc. reflexivity.
Qed.

Lemma all_chars_lstrip (s chars : string) :
  all_chars P s = true -> all_chars P (Py.lstrip s chars) = true.
Proof.
  induction s as [|c s IH]; simpl; [auto|].
  intros H. destruct (Py.char_in c chars); [|exact H].
  apply andb_prop in H as [_ H]. auto.
Qed.

Lemma all_chars_rstrip (s chars : string) :
  all_chars P s = true -> all_chars P (Py.rstrip s chars) = true.
Proof.
  induction s as [|c s IH]; simpl; [auto|].
  intros H. apply andb_prop in H as [Hc H]. specialize (IH H).
  destruct (Py.rstrip s chars) as [|d r].
  - destruct (Py.char_in c chars); simpl; [reflexivity|].
    rewrite Hc. reflexivity.
  - simpl in *. rewrite Hc. exact IH.
Qed.

Lemma all_chars_map (Q : ascii -> bool) (f : ascii -> ascii) (s : string) :
  (forall c, Q c = true -> P (f c) = true) ->
  all_chars Q s = true -> all_chars P (Py.map_chars f s) = true.
Proof.
  intros Hf. induction s as [|c s IH]; simpl; [auto|].
  intros H. apply andb_prop in H as [Hc H].
  rewrite (Hf c Hc). simpl. auto.
Qed.

End AllChars.

Lemma keep_or_dash_name_char (c : ascii) : name_char (keep_or_dash c) = true.
Proof.
  unfold keep_or_dash.
  destruct (Py.isalnum c || Py.char_in c "-_") eqn:E; [exact E | reflexivity].
Qed.

Lemma name_char_lower (c : ascii) :
  name_char c = true -> name_char (Py.lower_char c) = true.
Proof.
  destruct c as [[] [] [] [] [] [] [] []]; vm_compute; congruence.
Qed.

Lemma all_chars_true (s : string) : all_chars (fun _ => true) s = true.
Proof. induction s; simpl; auto. Qed.

(** Whatever the input, the clean-up leaves only name characters. *)
Lemma clean_up_name_chars (s : string) : all_chars name_char (clean_up s) = true.
Proof.
  unfold clean_up, Py.strip.
  apply all_chars_rstrip, all_chars_lstrip.
  apply (all_chars_map name_char (fun _ => true)); [|apply all_chars_true].
  intros c _. apply keep_or_dash_name_char.
Qed.

Lemma simplified_model_name_chars (model_id : string) :
  all_chars name_char (simplified_model_name model_id) = true.
Proof. apply clean_up_name_chars. Qed.

(** A string of name characters contains no marker that has another
    character in it. *)
Lemma name_chars_exclude (marker s : string) :
  all_chars name_char marker = false ->
  all_chars name_char s = true -> Py.contains marker s = false.
Proof.
  intros Hm Hs. destruct (Py.contains marker s) eqn:E; [|reflexivity].
  rewrite (all_chars_contains name_char marker s E Hs) in Hm. discriminate.
Qed.

Lemma string_app_assoc (a b c : string) : (a ++ b) ++ c = a ++ b ++ c.
Proof. induction a as [|x a IH]; simpl; [reflexivity | f_equal; exact IH]. Qed.

Lemma string_app_nil_r (a : string) : a ++ "" = a.
Proof. induction a as [|x a IH]; simpl; [reflexivity | f_equal; exact IH]. Qed.

Lemma string_length_app (a b : string) :
  String.length (a ++ b) = (String.length a + String.length b)%nat.
Proof. induction a as [|x a IH]; simpl; [reflexivity | f_equal; exact IH]. Qed.

Lemma prefix_length (x s : string) :
  String.prefix x s = true -> (String.length x <= String.length s)%nat.
Proof.
  intros H. apply prefix_app in H as [post ->]. rewrite string_length_app. lia.
Qed.

(** *** Strings without an occurrence of the separator or pattern *)

Lemma split_go_absent (sep cur s : string) :
  Py.contains sep s = false -> Py.split_go sep 0 cur s = [cur ++ s].
Proof.
  revert cur. induction s as [|c s IH]; intros cur H.
  - simpl. rewrite string_app_nil_r. reflexivity.
  - cbn [Py.contains] in H. apply orb_false_elim in H as [Hp Hs].
    cbn [Py.split_go]. rewrite Hp, (IH _ Hs), string_app_assoc. reflexivity.
Qed.

Lemma split_absent (s sep : string) :
  Py.contains sep s = false -> Py.last_piece (Py.split s sep) = s.
Proof.
  intros H. unfold Py.split. rewrite (split_go_absent _ _ _ H). reflexivity.
Qed.

Lemma replace_absent (s old new : string) :
  Py.contains old s = false -> Py.replace s old new = s.
Proof.
  unfold Py.replace. induction s as [|c s IH]; intros H; [reflexivity|].
  cbn [Py.contains] in H. apply orb_false_elim in H as [Hp Hs].
  cbn [Py.replace_go]. rewrite Hp, (IH Hs). reflexivity.
Qed.

Lemma map_chars_id (P : ascii -> bool) (f : ascii -> ascii) (s : string) :
  (forall c, P c = true -> f c = c) ->
  all_chars P s = true -> Py.map_chars f s = s.
Proof.
  intros Hf. induction s as [|c s IH]; simpl; [reflexivity|].
  intros H. apply andb_prop in H as [Hc H]. rewrite (Hf c Hc), (IH H). reflexivity.
Qed.

(** *** Skipping over a matched occurrence *)

Lemma replace_go_skip (old new x r : string) :
  Py.replace_go old new (String.length x) (x ++ r) = Py.replace_go old new 0 r.
Proof.
  induction x as [|c x IH]; simpl; [|exact IH].
  destruct r; reflexivity.
Qed.

(** An occurrence at the very start is replaced, and the scan resumes
    after it. *)
Lemma replace_at_start (old new r : string) :
  old <> "" ->
  Py.replace (old ++ r) old new = new ++ Py.replace r old new.
Proof.
  intros Hne. unfold Py.replace. destruct old as [|c old]; [congruence|].
  cbn [String.append Py.replace_go].
  assert (Hp : String.prefix (String c old) (String c (old ++ r)) = true).
  { apply prefix_app. exists r. reflexivity. }
  rewrite Hp.
  replace (String.length (String c old) - 1)%nat with (String.length old)
    by (simpl; lia).
  rewrite replace_go_skip. reflexivity.
Qed.

(** *** Names the normalizer leaves unchanged *)

Lemma norm_char_lower (c : ascii) : norm_char c = true -> Py.lower_char c = c.
Proof.
  destruct c as [[] [] [] [] [] [] [] []]; vm_compute; congruence.
Qed.

Lemma norm_char_keep (c : ascii) : norm_char c = true -> keep_or_dash c = c.
Proof.
  destruct c as [[] [] [] [] [] [] [] []]; vm_compute; congruence.
Qed.

Lemma norm_char_name_char (c : ascii) : norm_char c = true -> name_char c = true.
Proof.
  destruct c as [[] [] [] [] [] [] [] []]; vm_compute; congruence.
Qed.

Lemma lstrip_id (s chars : string) :
  starts_in s chars = false -> Py.lstrip s chars = s.
Proof. destruct s as [|c s]; simpl; [reflexivity|]. intros ->. reflexivity. Qed.

Lemma rstrip_id (s chars : string) :
  ends_in s chars = false -> Py.rstrip s chars = s.
Proof.
  induction s as [|c s IH]; [reflexivity|].
  cbn [ends_in Py.rstrip]. destruct s as [|d s].
  - simpl. intros ->. reflexivity.
  - intros H. rewrite (IH H). reflexivity.
Qed.

Lemma norm_chars_exclude (marker s : string) :
  all_chars norm_char marker = false ->
  all_chars norm_char s = true -> Py.contains marker s = false.
Proof.
  intros Hm Hs. destruct (Py.contains marker s) eqn:E; [|reflexivity].
  rewrite (all_chars_contains norm_char marker s E Hs) in Hm. discriminate.
Qed.

(** C4, at "llama-3-8b".  The family rewrite puts "llama-" in front of
    the text after the last "llama", which here is "-3-8b" and brings
    its own hyphen: the normalizer returns "llama--3-8b", not
    "llama-3-8b".  The same doubling happens on hub ids such as
    Meta-Llama-3-8B-Instruct-GGUF and Mistral-7B-Instruct-v0.2-GGUF; the
    gpt-4 markers "llama-3-8" and "mistral-7" of [create_openai_aliases]
    select the single-hyphen names and none of the names the normalizer
    produces for these ids. *)
Theorem normalizer_doubles_hyphen_on_llama_3_8b :
  simplified_model_name "llama-3-8b" = "llama--3-8b" /\
  simplified_model_name "llama-3-8b" <> "llama-3-8b" /\
  simplified_model_name "meta-llama/Meta-Llama-3-8B-Instruct-GGUF"
  = "llama--3-8b-instruct" /\
  simplified_model_name "TheBloke/Mistral-7B-Instruct-v0.2-GGUF"
  = "mistral--7b-instruct-v0-2" /\
  alias_candidates large_alias_markers
    ["llama--3-8b-instruct"; "mistral--7b-instruct-v0-2"] = [] /\
  alias_candidates large_alias_markers
    ["llama-3-8b-instruct"; "mistral-7b-instruct-v0-2"]
  = ["llama-3-8b-instruct"; "mistral-7b-instruct-v0-2"].
Proof.
  split; [reflexivity|]. split; [vm_compute; discriminate|].
  repeat split; reflexivity.
Qed.

(** X22. The normalizer returns its input unchanged on every name made
    of lower-case letters, digits, '-' and '_' that neither starts nor
    ends with '-' or '_' and contains none of "llama", "mistral" and
    "-gguf": on such names it is idempotent. *)
Theorem normalizer_identity_on_family_free_names (name : string) :
  all_chars norm_char name = true ->
  starts_in name "-_" = false ->
  ends_in name "-_" = false ->
  Py.contains "llama" name = false ->
  Py.contains "mistral" name = false ->
  Py.contains "-gguf" name = false ->
  simplified_model_name name = name.
Proof.
  intros Hchars Hstart Hend Hllama Hmistral Hgguf.
  unfold simplified_model_name.
  rewrite split_absent by (apply norm_chars_exclude; [reflexivity | exact Hchars]).
  assert (Hlow : Py.lower name = name).
  { apply (map_chars_id norm_char); [apply norm_char_lower | exact Hchars]. }
  rewrite Hlow. unfold family_rewrite. rewrite Hllama, Hmistral.
  unfold clean_up. rewrite (replace_absent _ _ _ Hgguf).
  rewrite (map_chars_id norm_char) by (apply norm_char_keep || exact Hchars).
  unfold Py.strip. rewrite (lstrip_id _ _ Hstart). apply rstrip_id, Hend.
Qed.

Lemma normalizer_identity_on_family_free_names_witness :
  simplified_model_name "phi-3-mini-4k-instruct" = "phi-3-mini-4k-instruct".
Proof.
  apply normalizer_identity_on_family_free_names; reflexivity.
Defined.

(** *** The "-gguf" removal *)

Section ReplaceOccurrence.

Variables old new : string.
Hypothesis old_nonempty : old <> "".
(** No occurrence of [old] starts before a following occurrence of [old]
    and runs into it. *)
Hypothesis old_no_straddle : forall a r : string,
  a <> "" -> String.prefix old (a ++ old ++ r) = String.prefix old a.

Lemma replace_go_app (a r : string) (k : nat) :
  (k <= String.length a)%nat ->
  Py.replace_go old new k (a ++ old ++ r)
  = Py.replace_go old new k a ++ Py.replace_go old new 0 (old ++ r).
Proof.
  revert k. induction a as [|c a IH]; intros k Hk.
  - simpl in Hk. assert (k = 0)%nat as -> by lia. reflexivity.
  - destruct k as [|k].
    + change (String c a ++ old ++ r) with (String c (a ++ old ++ r)).
      cbn [Py.replace_go].
      change (String c (a ++ old ++ r)) with (String c a ++ old ++ r).
      rewrite old_no_straddle by discriminate.
      destruct (String.prefix old (String c a)) eqn:Hp.
      * apply prefix_length in Hp. simpl in Hp.
        rewrite IH by lia. rewrite string_app_assoc. reflexivity.
      * rewrite IH by lia. reflexivity.
    + simpl in Hk. simpl. apply IH. lia.
Qed.

Lemma replace_app_occurrence (a r : string) :
  Py.replace (a ++ old ++ r) old new
  = Py.replace a old new ++ new ++ Py.replace r old new.
Proof.
  unfold Py.replace. rewrite replace_go_app by lia.
  f_equal. apply (replace_at_start old new r old_nonempty).
Qed.

End ReplaceOccurrence.

Lemma gguf_no_straddle (a r : string) :
  a <> "" -> String.prefix "-gguf" (a ++ "-gguf" ++ r) = String.prefix "-gguf" a.
Proof.
  intros Ha.
  destruct (String.prefix "-gguf" (a ++ "-gguf" ++ r)) eqn:E1;
    destruct (String.prefix "-gguf" a) eqn:E2; try reflexivity.
  - apply prefix_app in E1 as [post E1].
    assert (E3 : forall post', a <> "-gguf" ++ post').
    { intros post' ->. rewrite (proj2 (prefix_app _ _)) in E2 by eauto. discriminate. }
    destruct a as [|c1 [|c2 [|c3 [|c4 [|c5 a]]]]]; simpl in E1; try congruence.
    injection E1 as -> -> -> -> -> _. exfalso. apply (E3 a). reflexivity.
  - apply prefix_app in E2 as [post ->].
    rewrite string_app_assoc in E1.
    rewrite (proj2 (prefix_app _ _)) in E1 by eauto. discriminate.
Qed.

Lemma replace_gguf_app (a b : string) :
  Py.replace (a ++ "-gguf" ++ b) "-gguf" ""
  = Py.replace a "-gguf" "" ++ Py.replace b "-gguf" "".
Proof.
  rewrite (replace_app_occurrence "-gguf" ""); [reflexivity | discriminate |].
  apply gguf_no_straddle.
Qed.

(** C5, as the code has it.  The "-gguf" removal deletes the marker
    wherever it occurs, not only at the end: when the lower-cased and
    family-rewritten repo segment reads [a ++ "-gguf" ++ b], the name is
    computed from [a] and [b] with that occurrence (and every other one)
    deleted. *)
Theorem gguf_marker_removed_at_any_position (model_id a b : string) :
  family_rewrite (Py.lower (Py.last_piece (Py.split model_id "/")))
    = a ++ "-gguf" ++ b ->
  simplified_model_name model_id
  = Py.strip
      (Py.map_chars keep_or_dash (Py.replace a "-gguf" "" ++ Py.replace b "-gguf" ""))
      "-_".
Proof.
  intros H. unfold simplified_model_name, clean_up.
  rewrite H, replace_gguf_app. reflexivity.
Qed.

Lemma gguf_marker_removed_at_any_position_witness :
  simplified_model_name "org/My-GGUF-Model" = "my-model".
Proof.
  rewrite (gguf_marker_removed_at_any_position "org/My-GGUF-Model" "my" "-model");
    reflexivity.
Defined.

(** C5 as stated fails: in the repo segment "my-gguf-model" the marker
    occurs only in a non-trailing position, and the normalizer's output
    does not contain it. *)
Lemma inner_gguf_marker_not_preserved :
  ~ (forall segment : string,
       Py.contains "-gguf" segment = true ->
       Py.endswith segment "-gguf" = false ->
       Py.contains "-gguf" (simplified_model_name segment) = true).
Proof.
  intros H. specialize (H "my-gguf-model" eq_refl eq_refl).
  vm_compute in H. discriminate.
Qed.

Lemma lower_name_chars (s : string) :
  all_chars name_char s = true -> all_chars name_char (Py.lower s) = true.
Proof. apply all_chars_map. apply name_char_lower. Qed.

Lemma large_alias_marker_dot_unreachable (name : string) :
  all_chars name_char name = true ->
  Py.any_in large_alias_markers (Py.lower name)
  = Py.any_in reachable_large_alias_markers (Py.lower name).
Proof.
  intros H. unfold Py.any_in, large_alias_markers, reachable_large_alias_markers.
  cbn [List.existsb].
  rewrite (name_chars_exclude "llama-3.1-8" (Py.lower name));
    [reflexivity | reflexivity | apply lower_name_chars, H].
Qed.

(** C10. Every character of a normalized name is alphanumeric, '-' or
    '_'; so the name contains no '.', the marker "llama-3.1-8" is not a
    substring of it (lower-cased or not), and over any list of normalized
    names the gpt-4 candidates are those selected by "llama-3-8" and
    "mistral-7" alone. *)
Theorem normalized_name_has_no_dot (model_id : string) :
  all_chars name_char (simplified_model_name model_id) = true /\
  Py.contains "." (simplified_model_name model_id) = false /\
  Py.contains "llama-3.1-8" (simplified_model_name model_id) = false /\
  Py.contains "llama-3.1-8" (Py.lower (simplified_model_name model_id)) = false /\
  forall model_ids : list string,
    alias_candidates large_alias_markers (List.map simplified_model_name model_ids)
    = alias_candidates reachable_large_alias_markers
        (List.map simplified_model_name model_ids).
Proof.
  pose proof (simplified_model_name_chars model_id) as H.
  repeat split.
  - exact H.
  - apply name_chars_exclude; [reflexivity | exact H].
  - apply name_chars_exclude; [reflexivity | exact H].
  - apply name_chars_exclude; [reflexivity | apply lower_name_chars, H].
  - intros model_ids. unfold alias_candidates.
    induction model_ids as [|x xs IH]; [reflexivity|].
    cbn [List.map List.filter].
    rewrite large_alias_marker_dot_unreachable by apply simplified_model_name_chars.
    rewrite IH. reflexivity.
Qed.

(** ** Config Emitter *)

Lemma recommended_threads_bounds (cpu_cores : Z) :
  (2 <= recommended_threads cpu_cores <= 8)%Z.
Proof. unfold recommended_threads. lia. Qed.

(** C6. [create_model_config] writes, at [<config_dir>/<model_name>.yaml],
    a file that declares [name: <model_name>], the model path
    [/models/<model_file>], [context_size: 2048] and
    [threads: max(2, min(cpu_count // 2, 8))]; the thread count lies
    between 2 and 8 on every host, is 2 on a 1-core host and 8 on a
    32-core host. *)
Theorem create_model_config_declares (env : Env)
    (model_name model_file config_dir : string) (st : FS) :
  let threads := Z.max 2 (Z.min (cpu_count env / 2) 8) in
  let config_path := Py.path_join config_dir (model_name ++ ".yaml") in
  exists content rest : string,
    create_model_config env model_name model_file config_dir st
    = (write_file config_path content st, config_path) /\
    files (fst (create_model_config env model_name model_file config_dir st))
      !! config_path = Some content /\
    content
    = "name: " ++ model_name ++ Py.nl ++
      "backend: llama-cpp" ++ Py.nl ++
      "parameters:" ++ Py.nl ++
      "  model: /models/" ++ model_file ++ Py.nl ++
      "  context_size: 2048" ++ Py.nl ++
      "  threads: " ++ Py.str threads ++ Py.nl ++ rest /\
    (2 <= threads <= 8)%Z /\
    (cpu_count env = 1%Z -> threads = 2%Z) /\
    (cpu_count env = 32%Z -> threads = 8%Z).
Proof.
  intros threads config_path.
  eexists (config_content (cpu_count env) model_name model_file), _.
  split; [reflexivity|]. split; [apply lookup_insert_eq|].
  split; [|split; [subst threads; lia | split; intros H; subst threads; rewrite H; reflexivity]].
  unfold config_content, unlines. cbn [List.app List.fold_right].
  fold threads. unfold recommended_threads. fold threads.
  rewrite !string_app_assoc. reflexivity.
Qed.

(** ** Paths of configuration files *)

Lemma path_join_relative (a b : string) :
  Py.startswith b "/" = false -> Py.path_join a b = dir_prefix a ++ b.
Proof.
  intros H. unfold Py.path_join, dir_prefix. rewrite H.
  destruct (String.eqb a EmptyString || Py.endswith a "/"); [reflexivity|].
  rewrite string_app_assoc. reflexivity.
Qed.

Lemma string_app_inv_l (a b c : string) : a ++ b = a ++ c -> b = c.
Proof.
  induction a as [|x a IH]; simpl; [auto|]. intros H. injection H as H. auto.
Qed.

Lemma string_app_inv_r (a b c : string) : a ++ c = b ++ c -> a = b.
Proof.
  revert b. induction a as [|x a IH]; intros [|y b] H; simpl in H.
  - reflexivity.
  - apply (f_equal String.length) in H. simpl in H.
    rewrite string_length_app in H. lia.
  - apply (f_equal String.length) in H. simpl in H.
    rewrite string_length_app in H. lia.
  - injection H as -> H. f_equal. apply IH, H.
Qed.

Lemma prefix_cons_cons (a b : ascii) (x s : string) :
  String.prefix (String a x) (String b s)
  = if Ascii.ascii_dec a b then String.prefix x s else false.
Proof. reflexivity. Qed.

Lemma yaml_name_relative (stem : string) :
  starts_in stem "/" = false -> Py.startswith (stem ++ ".yaml") "/" = false.
Proof.
  destruct stem as [|c stem]; [reflexivity|].
  unfold Py.startswith. intros H.
  change (String c stem ++ ".yaml") with (String c (stem ++ ".yaml")).
  rewrite prefix_cons_cons.
  destruct (Ascii.ascii_dec "/" c) as [<-|]; [discriminate | reflexivity].
Qed.

Lemma config_path_of_relative (config_dir stem : string) :
  starts_in stem "/" = false ->
  config_path_of config_dir stem = dir_prefix config_dir ++ stem ++ ".yaml".
Proof.
  intros H. unfold config_path_of. apply path_join_relative, yaml_name_relative, H.
Qed.

(** Distinct relative stems name distinct files of the directory. *)
Lemma config_path_of_inj (config_dir a b : string) :
  starts_in a "/" = false -> starts_in b "/" = false ->
  config_path_of config_dir a = config_path_of config_dir b -> a = b.
Proof.
  intros Ha Hb H. rewrite !config_path_of_relative in H by assumption.
  apply string_app_inv_l, string_app_inv_r in H. exact H.
Qed.

Lemma name_chars_relative (name : string) :
  all_chars name_char name = true -> starts_in name "/" = false.
Proof.
  destruct name as [|c name]; [reflexivity|]. simpl.
  intros H. apply andb_prop in H as [H _].
  destruct (Ascii.eqb_spec c "/") as [->|Hne]; [discriminate | reflexivity].
Qed.

Lemma name_chars_no_slash (name : string) :
  all_chars name_char name = true -> Py.contains "/" name = false.
Proof. apply name_chars_exclude. reflexivity. Qed.

(** ** The name declared by a configuration file *)

Lemma declares_name_app (content stem : string) :
  declares_name content stem = true <->
  exists rest, content = ("name: " ++ stem) ++ Py.nl ++ rest.
Proof.
  unfold declares_name, Py.startswith. rewrite prefix_app.
  split; intros [rest H]; exists rest; rewrite H, !string_app_assoc; reflexivity.
Qed.

Lemma config_content_declares (cpu_cores : Z) (model_name model_file : string) :
  declares_name (config_content cpu_cores model_name model_file) model_name = true.
Proof.
  apply declares_name_app. unfold config_content, unlines.
  cbn [List.app List.fold_right]. eexists. reflexivity.
Qed.

(** Text whose characters all differ from the first character of [old]
    holds no start of an occurrence of [old]. *)
Lemma replace_keeps_head (old' new x r : string) (o : ascii) :
  all_chars (fun c => negb (Ascii.eqb o c)) x = true ->
  Py.replace (x ++ r) (String o old') new = x ++ Py.replace r (String o old') new.
Proof.
  unfold Py.replace. induction x as [|c x IH]; [reflexivity|].
  simpl all_chars. intros H. apply andb_prop in H as [Hc H].
  change (String c x ++ r) with (String c (x ++ r)). cbn [Py.replace_go].
  assert (Hp : String.prefix (String o old') (String c (x ++ r)) = false).
  { rewrite prefix_cons_cons. destruct (Ascii.ascii_dec o c) as [->|]; [|reflexivity].
    rewrite Ascii.eqb_refl in Hc. discriminate. }
  rewrite Hp, (IH H). reflexivity.
Qed.

(** The alias step's first replacement turns the declared name into the
    alias name. *)
Lemma replace_name_declares (content source alias : string) :
  declares_name content source = true ->
  declares_name (Py.replace content ("name: " ++ source) ("name: " ++ alias)) alias = true.
Proof.
  intros H. apply declares_name_app in H as [rest ->].
  rewrite replace_at_start by discriminate.
  change (Py.nl ++ rest) with (Py.nl ++ rest).
  change ("name: " ++ source) with (String "n" ("ame: " ++ source)).
  rewrite (replace_keeps_head _ _ Py.nl rest "n") by reflexivity.
  apply declares_name_app. eexists. reflexivity.
Qed.

(** The gpt-4 step's second replacement leaves the name line alone. *)
Lemma replace_context_size_declares (content : string) :
  declares_name content "gpt-4" = true ->
  declares_name (Py.replace content "context_size: 2048" "context_size: 4096") "gpt-4"
  = true.
Proof.
  intros H. apply declares_name_app in H as [rest ->].
  change "context_size: 2048" with (String "c" "ontext_size: 2048").
  rewrite <- string_app_assoc.
  rewrite (replace_keeps_head _ _ (("name: " ++ "gpt-4") ++ Py.nl) rest "c") by reflexivity.
  apply declares_name_app. eexists. rewrite string_app_assoc. reflexivity.
Qed.

(** ** The run: every name in the list has its configuration file *)

Lemma names_declared_write (config_dir stem content : string)
    (names : list string) (st : FS) :
  List.Forall normalized names ->
  starts_in stem "/" = false ->
  declares_name content stem = true ->
  names_declared config_dir names st ->
  names_declared config_dir names
    (write_file (config_path_of config_dir stem) content st).
Proof.
  intros Hnorm Hstem Hdecl Hnames n Hn. simpl.
  destruct (decide (config_path_of config_dir stem = config_path_of config_dir n))
    as [Heq|Hne].
  - assert (stem = n) as <-.
    { apply (config_path_of_inj config_dir stem n); [exact Hstem | | exact Heq].
      apply name_chars_relative. rewrite List.Forall_forall in Hnorm.
      apply Hnorm, Hn. }
    exists content. split; [apply lookup_insert_eq | exact Hdecl].
  - rewrite lookup_insert_ne by exact Hne. apply Hnames, Hn.
Qed.

Lemma alias_candidates_In (markers names : list string) (m : string) (ms : list string) :
  alias_candidates markers names = m :: ms -> In m names.
Proof.
  intros H. assert (Hin : In m (alias_candidates markers names)).
  { rewrite H. left. reflexivity. }
  apply List.filter_In in Hin. tauto.
Qed.

Lemma alias_gpt35_ok (config_dir : string) (names : list string) (st : FS) :
  List.Forall normalized names ->
  names_declared config_dir names st ->
  alias_step_ok config_dir names st (alias_gpt35 config_dir names st).
Proof.
  intros Hnorm Hnames. unfold alias_gpt35, alias_step_ok.
  destruct (alias_candidates small_alias_markers names) as [|m ms] eqn:E.
  { exists st, []. rewrite List.app_nil_r. auto. }
  apply alias_candidates_In in E.
  destruct (Hnames m E) as (c & Hc & Hdecl).
  change (Py.path_join config_dir (m ++ ".yaml")) with (config_path_of config_dir m).
  unfold path_exists, read_file. rewrite Hc.
  rewrite bool_decide_eq_true_2 by eauto.
  eexists _, [_]. split; [reflexivity|]. split; [reflexivity|]. split.
  - constructor; [|constructor]. exists "gpt-3.5-turbo".
    split; [reflexivity|]. split; [reflexivity|].
    apply replace_name_declares, Hdecl.
  - apply (names_declared_write config_dir "gpt-3.5-turbo"); try assumption.
    + reflexivity.
    + apply replace_name_declares, Hdecl.
Qed.

Lemma alias_gpt4_ok (config_dir : string) (names : list string) (st : FS) :
  List.Forall normalized names ->
  names_declared config_dir names st ->
  alias_step_ok config_dir names st (alias_gpt4 config_dir names st).
Proof.
  intros Hnorm Hnames. unfold alias_gpt4, alias_step_ok.
  destruct (alias_candidates large_alias_markers names) as [|m ms] eqn:E.
  { exists st, []. rewrite List.app_nil_r. auto. }
  apply alias_candidates_In in E.
  destruct (Hnames m E) as (c & Hc & Hdecl).
  change (Py.path_join config_dir (m ++ ".yaml")) with (config_path_of config_dir m).
  unfold path_exists, read_file. rewrite Hc.
  rewrite bool_decide_eq_true_2 by eauto.
  assert (Hnew : declares_name
            (Py.replace (Py.replace c ("name: " ++ m) "name: gpt-4")
               "context_size: 2048" "context_size: 4096") "gpt-4" = true).
  { apply replace_context_size_declares.
    apply (replace_name_declares c m "gpt-4"), Hdecl. }
  eexists _, [_]. split; [reflexivity|]. split; [reflexivity|]. split.
  - constructor; [|constructor]. exists "gpt-4".
    split; [reflexivity|]. split; [reflexivity | exact Hnew].
  - apply (names_declared_write config_dir "gpt-4"); try assumption. reflexivity.
Qed.

Lemma create_openai_aliases_ok (config_dir : string) (names : list string) (st : FS) :
  List.Forall normalized names ->
  names_declared config_dir names st ->
  alias_step_ok config_dir names st (create_openai_aliases config_dir names st).
Proof.
  intros Hnorm Hnames. unfold create_openai_aliases.
  destruct names as [|n names'] eqn:En.
  { exists st, []. rewrite List.app_nil_r. auto. }
  rewrite <- En in *. clear En.
  destruct (alias_gpt35_ok config_dir names st Hnorm Hnames)
    as (st1 & ws1 & -> & Htr1 & Hws1 & Hnames1).
  destruct (alias_gpt4_ok config_dir names st1 Hnorm Hnames1)
    as (st2 & ws2 & -> & Htr2 & Hws2 & Hnames2).
  exists st2, (ws1 ++ ws2)%list. split; [reflexivity|]. split; [|split].
  - rewrite Htr2, Htr1, List.app_assoc. reflexivity.
  - apply List.Forall_app. auto.
  - exact Hnames2.
Qed.

Lemma run_inv_init (config_dir : string) (st0 : FS) : run_inv config_dir st0 (st0, []).
Proof.
  split; [|split].
  - exists []. rewrite List.app_nil_r. auto.
  - constructor.
  - intros n [].
Qed.

Lemma process_model_inv (env : Env) (args : Args) (st0 : FS)
    (rs : run_state) (model : ModelInfo) :
  run_inv (config_dir args) st0 rs ->
  run_inv (config_dir args) st0 (process_model env args rs model).
Proof.
  intros Hinv. unfold process_model. destruct rs as [st names].
  destruct (find_best_gguf_file env (id model)) as [[|c file_name]|]; try exact Hinv.
  destruct (download_model env (id model) (String c file_name) (output_dir args))
    as [[|d path]|]; try exact Hinv.
  destruct Hinv as ((ws & Htr & Hws) & Hnorm & Hnames). simpl in *.
  set (name := simplified_model_name (id model)).
  set (content := config_content (cpu_count env) name (Py.basename (String c file_name))).
  assert (Hname : normalized name) by apply simplified_model_name_chars.
  assert (Hnorm' : List.Forall normalized (names ++ [name])%list).
  { apply List.Forall_app. split; [exact Hnorm | constructor; [exact Hname | constructor]]. }
  split; [|split]; simpl.
  - exists (ws ++ [(config_path_of (config_dir args) name, content)])%list.
    rewrite Htr, List.app_assoc. split; [reflexivity|].
    apply List.Forall_app. split; [exact Hws|]. constructor; [|constructor].
    exists name. split; [apply name_chars_no_slash, Hname|].
    split; [reflexivity | apply config_content_declares].
  - exact Hnorm'.
  - intros n Hn. apply List.in_app_or in Hn as [Hn|[<-|[]]].
    + apply (names_declared_write (config_dir args) name content names st);
        try assumption.
      * apply name_chars_relative, Hname.
      * apply config_content_declares.
    + exists content. split; [apply lookup_insert_eq | apply config_content_declares].
Qed.

Lemma process_models_inv (env : Env) (args : Args) (st0 : FS)
    (models : list ModelInfo) (rs : run_state) :
  run_inv (config_dir args) st0 rs ->
  run_inv (config_dir args) st0 (process_models env args models rs).
Proof.
  unfold process_models. revert rs.
  induction models as [|m models IH]; intros rs Hinv; simpl; [exact Hinv|].
  apply IH, process_model_inv, Hinv.
Qed.

(** C7. Every configuration file the run writes declares, when it is
    written, the stem of its own file name: [main] always returns, and
    each write it made, by [create_model_config] or by the alias step
    under "gpt-3.5-turbo" or "gpt-4", put at [<config_dir>/<stem>.yaml] a
    content that starts with the line [name: <stem>]. *)
Theorem run_writes_well_named_configs (env : Env) (args : Args) (st0 : FS) :
  exists (st : FS) (names : list string) (ws : list (string * string)),
    main env args st0 = Returned (st, names) /\
    trace st = (trace st0 ++ ws)%list /\
    List.Forall (well_named (config_dir args)) ws.
Proof.
  unfold main. destruct (list_only args).
  { exists st0, [], []. rewrite List.app_nil_r. auto. }
  pose proof (process_models_inv env args st0
    (get_trending_gguf_models env (num_models args) (small_only args)
       (parse_categories (include_categories args)))
    (st0, []) (run_inv_init _ _)) as Hinv.
  destruct (process_models env args _ (st0, [])) as [st names].
  destruct Hinv as ((ws & Htr & Hws) & Hnorm & Hnames). simpl in *.
  destruct (create_aliases args); [|eauto 6].
  destruct names as [|n names'] eqn:En; [eauto 6|].
  rewrite <- En in *. clear En.
  destruct (create_openai_aliases_ok (config_dir args) names st Hnorm Hnames)
    as (st' & ws' & -> & Htr' & Hws' & _).
  exists st', names, (ws ++ ws')%list. split; [reflexivity|]. split.
  - rewrite Htr', Htr, List.app_assoc. reflexivity.
  - apply List.Forall_app. auto.
Qed.

(** ** Per-model failures *)

Lemma process_models_app (env : Env) (args : Args)
    (before after : list ModelInfo) (rs : run_state) :
  process_models env args (before ++ after)%list rs
  = process_models env args after (process_models env args before rs).
Proof. unfold process_models. apply List.fold_left_app. Qed.

(** C8. A model whose file listing raises, for which the resolver finds
    no suitable file, or whose download fails is skipped: its iteration
    leaves the configuration directory, the trace of writes and the list
    of downloaded names as they were, and the run goes on with the
    remaining models exactly as if that model had not been in the list. *)
Theorem failed_model_is_skipped (env : Env) (args : Args) (model : ModelInfo) :
  skip_cause env args model ->
  (forall rs, process_model env args rs model = rs) /\
  (forall before after rs,
     process_models env args (before ++ model :: after)%list rs
     = process_models env args (before ++ after)%list rs).
Proof.
  intros Hskip.
  assert (Hone : forall rs, process_model env args rs model = rs).
  { intros [st names]. unfold process_model.
    destruct Hskip as [[msg Hraise] | [Hnone | (f & Hf & Hfetch)]].
    - unfold find_best_gguf_file. rewrite Hraise. reflexivity.
    - rewrite Hnone. reflexivity.
    - rewrite Hf. unfold download_model. rewrite Hfetch.
      destruct f; reflexivity. }
  split; [exact Hone|].
  intros before after rs. rewrite !process_models_app.
  unfold process_models at 1. simpl. rewrite Hone. reflexivity.
Qed.

(** ** Alias Emitter *)

Lemma alias_paths_differ (config_dir : string) :
  gpt35_path config_dir <> gpt4_path config_dir.
Proof.
  unfold gpt35_path, gpt4_path. rewrite !path_join_relative by reflexivity.
  intros H. apply string_app_inv_l in H. discriminate.
Qed.

Lemma alias_candidates_none (markers names : list string) :
  (forall n, In n names -> ~ has_marker markers n) ->
  alias_candidates markers names = [].
Proof.
  intros H. unfold alias_candidates. apply filter_nil_existsb.
  destruct (List.existsb _ names) eqn:E; [|reflexivity].
  apply List.existsb_exists in E as (n & Hn & Hm).
  apply any_in_lower_has_marker in Hm. destruct (H n Hn Hm).
Qed.

Lemma path_exists_lookup (p : string) (st : FS) :
  path_exists p st = true -> exists c, read_file p st = Returned c.
Proof.
  unfold path_exists, read_file. intros H.
  apply bool_decide_eq_true in H as [c ->]. eauto.
Qed.

Lemma path_exists_missing (p : string) (st : FS) :
  files st !! p = None -> path_exists p st = false.
Proof.
  unfold path_exists. intros H. apply bool_decide_eq_false. rewrite H.
  intros [c Hc]. discriminate.
Qed.

(** Each slot returns, and either leaves the directory as it is or makes
    one write, to its own alias path, for a matching name. *)
Lemma alias_gpt35_cases (config_dir : string) (names : list string) (st : FS) :
  alias_gpt35 config_dir names st = Returned st \/
  exists m ms c,
    alias_candidates small_alias_markers names = m :: ms /\
    path_exists (Py.path_join config_dir (m ++ ".yaml")) st = true /\
    alias_gpt35 config_dir names st = Returned (write_file (gpt35_path config_dir) c st).
Proof.
  unfold alias_gpt35.
  destruct (alias_candidates small_alias_markers names) as [|m ms]; [auto|].
  destruct (path_exists (Py.path_join config_dir (m ++ ".yaml")) st) eqn:E; [|auto].
  destruct (path_exists_lookup _ _ E) as [c ->]. right. eauto 6.
Qed.

Lemma alias_gpt4_cases (config_dir : string) (names : list string) (st : FS) :
  alias_gpt4 config_dir names st = Returned st \/
  exists m ms c,
    alias_candidates large_alias_markers names = m :: ms /\
    path_exists (Py.path_join config_dir (m ++ ".yaml")) st = true /\
    alias_gpt4 config_dir names st = Returned (write_file (gpt4_path config_dir) c st).
Proof.
  unfold alias_gpt4.
  destruct (alias_candidates large_alias_markers names) as [|m ms]; [auto|].
  destruct (path_exists (Py.path_join config_dir (m ++ ".yaml")) st) eqn:E; [|auto].
  destruct (path_exists_lookup _ _ E) as [c ->]. right. eauto 6.
Qed.

Lemma no_write_to_nil (p : string) : no_write_to p [].
Proof. intros ev []. Qed.

Lemma no_write_to_single (p q c : string) : q <> p -> no_write_to p [(q, c)].
Proof. intros H ev [<-|[]]. exact H. Qed.

Ltac absurd_candidates :=
  match goal with
  | H1 : ?l = [], H2 : ?l = _ :: _ |- _ => rewrite H1 in H2; discriminate H2
  end.

Lemma create_openai_aliases_cases (config_dir : string) (names : list string) (st : FS) :
  exists st' ws,
    create_openai_aliases config_dir names st = Returned st' /\
    trace st' = (trace st ++ ws)%list /\
    (alias_candidates small_alias_markers names = [] ->
     no_write_to (gpt35_path config_dir) ws /\
     files st' !! gpt35_path config_dir = files st !! gpt35_path config_dir) /\
    (alias_candidates large_alias_markers names = [] ->
     no_write_to (gpt4_path config_dir) ws /\
     files st' !! gpt4_path config_dir = files st !! gpt4_path config_dir).
Proof.
  pose proof (alias_paths_differ config_dir) as Hdiff.
  unfold create_openai_aliases.
  destruct names as [|n names'] eqn:En.
  { exists st, []. rewrite List.app_nil_r.
    repeat split; auto using no_write_to_nil. }
  rewrite <- En. clear En.
  destruct (alias_gpt35_cases config_dir names st)
    as [-> | (m1 & ms1 & c1 & Hc1 & _ & ->)];
    [ destruct (alias_gpt4_cases config_dir names st)
        as [-> | (m2 & ms2 & c2 & Hc2 & _ & ->)]
    | destruct (alias_gpt4_cases config_dir names (write_file (gpt35_path config_dir) c1 st))
        as [-> | (m2 & ms2 & c2 & Hc2 & _ & ->)] ].
  - exists st, []. rewrite List.app_nil_r.
    repeat split; auto using no_write_to_nil.
  - exists (write_file (gpt4_path config_dir) c2 st), [(gpt4_path config_dir, c2)].
    split; [reflexivity|]. split; [reflexivity|]. split; intros Hnone.
    + split; [apply no_write_to_single; congruence|].
      simpl. apply lookup_insert_ne. congruence.
    + absurd_candidates.
  - exists (write_file (gpt35_path config_dir) c1 st), [(gpt35_path config_dir, c1)].
    split; [reflexivity|]. split; [reflexivity|]. split; intros Hnone.
    + absurd_candidates.
    + split; [apply no_write_to_single; congruence|].
      simpl. apply lookup_insert_ne. congruence.
  - eexists _, [(gpt35_path config_dir, c1); (gpt4_path config_dir, c2)].
    split; [reflexivity|]. split.
    + simpl. rewrite <- List.app_assoc. reflexivity.
    + split; intros Hnone; absurd_candidates.
Qed.

(** C9. The alias step always returns without error.  When no downloaded
    name contains (case-insensitively) one of "phi", "gemma-2", "mistral",
    "llama-3-1b", it makes no write to [gpt-3.5-turbo.yaml] and the file
    is as before; when none contains one of "llama-3-8", "mistral-7",
    "llama-3.1-8", the same holds of [gpt-4.yaml].  A slot whose first
    matching name has no configuration file leaves the directory as it
    is. *)
Theorem alias_slot_needs_matching_name (config_dir : string)
    (names : list string) (st : FS) :
  (exists st' ws,
     create_openai_aliases config_dir names st = Returned st' /\
     trace st' = (trace st ++ ws)%list /\
     ((forall n, In n names -> ~ has_marker small_alias_markers n) ->
      no_write_to (Py.path_join config_dir "gpt-3.5-turbo.yaml") ws /\
      files st' !! Py.path_join config_dir "gpt-3.5-turbo.yaml"
      = files st !! Py.path_join config_dir "gpt-3.5-turbo.yaml") /\
     ((forall n, In n names -> ~ has_marker large_alias_markers n) ->
      no_write_to (Py.path_join config_dir "gpt-4.yaml") ws /\
      files st' !! Py.path_join config_dir "gpt-4.yaml"
      = files st !! Py.path_join config_dir "gpt-4.yaml"))
  /\
  (forall m ms,
     alias_candidates small_alias_markers names = m :: ms ->
     files st !! Py.path_join config_dir (m ++ ".yaml") = None ->
     alias_gpt35 config_dir names st = Returned st)
  /\
  (forall m ms,
     alias_candidates large_alias_markers names = m :: ms ->
     files st !! Py.path_join config_dir (m ++ ".yaml") = None ->
     alias_gpt4 config_dir names st = Returned st).
Proof.
  split; [|split].
  - destruct (create_openai_aliases_cases config_dir names st)
      as (st' & ws & Hret & Htr & Hsmall & Hlarge).
    exists st', ws. split; [exact Hret|]. split; [exact Htr|].
    split; intros Hnone.
    + apply Hsmall, alias_candidates_none, Hnone.
    + apply Hlarge, alias_candidates_none, Hnone.
  - intros m ms Hc Hmissing. unfold alias_gpt35.
    rewrite Hc, (path_exists_missing _ _ Hmissing). reflexivity.
  - intros m ms Hc Hmissing. unfold alias_gpt4.
    rewrite Hc, (path_exists_missing _ _ Hmissing). reflexivity.
Qed.

(** The names the loop appends are normalizer outputs. *)
Lemma process_models_names (env : Env) (args : Args)
    (models : list ModelInfo) (rs : run_state) :
  exists model_ids,
    snd (process_models env args models rs)
    = (snd rs ++ List.map simplified_model_name model_ids)%list.
Proof.
  unfold process_models. revert rs.
  induction models as [|m models IH]; intros rs; simpl.
  - exists []. rewrite List.app_nil_r. reflexivity.
  - destruct (IH (process_model env args rs m)) as [ids ->].
    destruct rs as [st names]. unfold process_model.
    destruct (find_best_gguf_file env (id m)) as [[|c f]|];
      try (exists ids; reflexivity).
    destruct (download_model env (id m) (String c f) (output_dir args)) as [[|d p]|];
      try (exists ids; reflexivity).
    exists (id m :: ids). simpl. rewrite <- List.app_assoc. reflexivity.
Qed.

(** ** Concrete runs *)

Lemma find_best_gguf_file_priority_witness :
  exists r, find_best_gguf_file demo_env "org/Phi-3-mini-GGUF" = Some r /\
            lex_first (gguf_with "Q3_K") demo_files r.
Proof.
  pose proof (find_best_gguf_file_priority demo_env "org/Phi-3-mini-GGUF") as H.
  change (list_repo_files demo_env "org/Phi-3-mini-GGUF") with (Returned demo_files) in H.
  destruct H as (_ & H & _).
  apply (H eq_refl ["Q4_0"; "Q4_K"] "Q3_K" ["Q5_K"; "Q2_K"; "Q8_0"] eq_refl).
  - intros e [<-|[<-|[]]]; reflexivity.
  - reflexivity.
Defined.

Lemma size_filter_strict_allow_list_witness :
  let m := {| id := "TheBloke/Llama-2-13B-7b-GGUF"; downloads := 900 |} in
  size_ok true m = false /\
  ~ In m (get_trending_gguf_models demo_env 5 true None).
Proof.
  intros m.
  apply (proj1 (size_filter_strict_allow_list demo_env 5 None m)).
  exists "13b". split; [simpl; tauto|].
  exists "TheBloke/Llama-2-", "13B", "-7b-GGUF". split; reflexivity.
Defined.

Lemma create_model_config_declares_witness :
  Z.max 2 (Z.min (cpu_count demo_env / 2) 8) = 8%Z.
Proof.
  destruct (create_model_config_declares demo_env "phi-3-mini" "model-Q3_K.gguf"
              "/opt/localai/config" empty_dir)
    as (content & rest & _ & _ & _ & _ & _ & H32).
  apply H32. reflexivity.
Defined.

Lemma failed_model_is_skipped_witness :
  process_model demo_env demo_args (empty_dir, [])
    {| id := "org/broken"; downloads := 10 |}
  = (empty_dir, []).
Proof.
  apply (proj1 (failed_model_is_skipped demo_env demo_args
                  {| id := "org/broken"; downloads := 10 |}
                  (or_introl (ex_intro _ "RepositoryNotFoundError" eq_refl)))).
Defined.

Lemma alias_slot_needs_matching_name_witness :
  exists st' ws,
    create_openai_aliases "/opt/localai/config" ["qwen2-7b-instruct"] empty_dir
    = Returned st' /\
    trace st' = (trace empty_dir ++ ws)%list /\
    no_write_to (Py.path_join "/opt/localai/config" "gpt-3.5-turbo.yaml") ws.
Proof.
  destruct (proj1 (alias_slot_needs_matching_name "/opt/localai/config"
                     ["qwen2-7b-instruct"] empty_dir))
    as (st' & ws & Hret & Htr & Hsmall & _).
  exists st', ws. split; [exact Hret|]. split; [exact Htr|].
  apply Hsmall. intros n [<-|[]] Hm.
  apply any_in_lower_has_marker in Hm. vm_compute in Hm. discriminate.
Defined.

Example demo_run_names :
  match main demo_env demo_args empty_dir with
  | Returned (_, names) => names = ["phi-3-mini"]
  | Raised _ => False
  end.
Proof. vm_compute. reflexivity. Qed.


(** * Further properties of the pipeline *)

(** ** Candidate Filter: what the loop returns *)

Lemma filter_loop_firstn (max_models : Z) (small_only : bool)
    (categories : option (list string)) (models acc : list ModelInfo) :
  (List.length acc < effective_cap max_models)%nat ->
  filter_loop max_models small_only categories models acc
  = (acc ++ List.firstn (effective_cap max_models - List.length acc)
              (List.filter (qualifies small_only categories) models))%list.
Proof.
  unfold effective_cap, qualifies. revert acc.
  induction models as [|m models IH]; intros acc Hacc; simpl.
  - rewrite List.firstn_nil, List.app_nil_r. reflexivity.
  - destruct (category_ok categories m); simpl; [|apply IH, Hacc].
    destruct (size_ok small_only m); simpl; [|apply IH, Hacc].
    assert (Hlen : List.length (acc ++ [m])%list = S (List.length acc)).
    { rewrite List.length_app. simpl. lia. }
    destruct (Z.geb_spec (Z.of_nat (List.length (acc ++ [m])%list)) max_models)
      as [Hge|Hlt]; rewrite Hlen in *.
    + replace (Z.to_nat (Z.max 1 max_models) - List.length acc)%nat with 1%nat by lia.
      simpl. reflexivity.
    + rewrite IH by lia. rewrite Hlen, <- List.app_assoc. simpl.
      replace (Z.to_nat (Z.max 1 max_models) - List.length acc)%nat
        with (S (Z.to_nat (Z.max 1 max_models) - S (List.length acc)))%nat by lia.
      reflexivity.
Qed.

(** X1. The Candidate Filter returns the first [max(1, max_models)] hub
    models that pass the category and size tests, in hub order. *)
Theorem get_trending_gguf_models_firstn (env : Env) (max_models : Z)
    (small_only : bool) (categories : option (list string)) :
  get_trending_gguf_models env max_models small_only categories
  = List.firstn (effective_cap max_models)
      (List.filter (qualifies small_only categories) (list_models env)).
Proof.
  unfold get_trending_gguf_models.
  rewrite filter_loop_firstn by (unfold effective_cap; simpl; lia).
  simpl. rewrite Nat.sub_0_r. reflexivity.
Qed.

(** X2. With a non-empty category list, a model passes the category test
    exactly when some category occurs in its id, case being ignored on
    both sides. *)
Theorem category_filter_case_insensitive (cats : list string) (m : ModelInfo) :
  cats <> [] ->
  (category_ok (Some cats) m = true <->
   exists cat, In cat cats /\ occurs_ci (Py.lower cat) (id m)).
Proof.
  intros Hne. destruct cats as [|c cats]; [congruence|].
  unfold category_ok. rewrite List.existsb_exists.
  split; intros (cat & Hin & H); exists cat; (split; [exact Hin|]);
    apply contains_lower_occurs_ci; exact H.
Qed.

Lemma category_filter_case_insensitive_witness :
  category_ok (Some ["LLaMA"; "gemma"]) {| id := "TheBloke/Llama-2-7B-GGUF"; downloads := 1 |}
  = true.
Proof.
  apply (category_filter_case_insensitive ["LLaMA"; "gemma"]); [discriminate|].
  exists "LLaMA". split; [left; reflexivity|].
  exists "TheBloke/", "Llama", "-2-7B-GGUF". split; reflexivity.
Defined.

Lemma contains_empty (s : string) : Py.contains "" s = true.
Proof. destruct s; reflexivity. Qed.

(** X3. An empty entry in the category list (as a trailing comma in
    [--include-categories] gives) matches every model, so the category
    filter keeps everything. *)
Theorem empty_category_matches_every_model (cats : list string) (m : ModelInfo) :
  In "" cats -> category_ok (Some cats) m = true.
Proof.
  intros Hin. destruct cats as [|c cats]; [destruct Hin|].
  unfold category_ok. apply List.existsb_exists.
  exists "". split; [exact Hin | apply contains_empty].
Qed.

Lemma empty_category_matches_every_model_witness :
  parse_categories (Some "llama,") = Some ["llama"; ""] /\
  category_ok (Some ["llama"; ""]) {| id := "microsoft/Phi-3-mini-gguf"; downloads := 1 |}
  = true.
Proof.
  split; [reflexivity|].
  apply empty_category_matches_every_model. right. left. reflexivity.
Defined.

(** ** Artifact Resolver: what it returns and when *)

Lemma try_patterns_In (patterns gguf_files : list string) (r : string) :
  try_patterns patterns gguf_files = Some (Some r) -> In r gguf_files.
Proof.
  induction patterns as [|p patterns IH]; simpl; [discriminate|].
  destruct (List.filter (Py.contains p) gguf_files) as [|a l] eqn:E; [exact IH|].
  intros H. injection H as H. rewrite <- E in H.
  apply first_sorted_least in H as [H _].
  apply List.filter_In in H. tauto.
Qed.

Lemma try_patterns_returns (patterns gguf_files : list string) (x : option string) :
  try_patterns patterns gguf_files = Some x -> exists r, x = Some r.
Proof.
  induction patterns as [|p patterns IH]; simpl; [discriminate|].
  destruct (List.filter (Py.contains p) gguf_files) as [|a l]; [exact IH|].
  intros H. injection H as <-. apply first_sorted_nonempty.
Qed.

Lemma best_of_listing_In (files : list string) (r : string) :
  best_of_listing files = Some r -> In r files /\ is_gguf r = true.
Proof.
  unfold best_of_listing.
  destruct (List.filter (fun f => is_gguf f && Py.contains "Q4_K_M" f) files)
    as [|a l] eqn:Eq4.
  - destruct (List.filter is_gguf files) as [|b l'] eqn:Eg; [discriminate|].
    rewrite <- Eg.
    destruct (try_patterns fallback_patterns (List.filter is_gguf files)) as [x|] eqn:Et.
    + intros ->. apply try_patterns_In in Et. apply List.filter_In in Et. exact Et.
    + intros H. apply first_sorted_least in H as [H _].
      apply List.filter_In in H. exact H.
  - rewrite <- Eq4. intros H. apply first_sorted_least in H as [H _].
    apply List.filter_In in H as [Hin H]. apply andb_prop in H. tauto.
Qed.

Lemma best_of_listing_some (files : list string) :
  List.existsb is_gguf files = true -> exists r, best_of_listing files = Some r.
Proof.
  intros H. unfold best_of_listing.
  destruct (List.filter (fun f => is_gguf f && Py.contains "Q4_K_M" f) files)
    as [|a l]; [|apply first_sorted_nonempty].
  destruct (filter_cons_existsb _ _ H) as (b & l' & E). rewrite E.
  destruct (try_patterns fallback_patterns (b :: l')) as [x|] eqn:Et.
  - apply try_patterns_returns in Et as [r ->]. eauto.
  - apply first_sorted_nonempty.
Qed.

(** X4. The resolver selects, it never constructs: a returned file name
    is an entry of the repository listing, ends in ".gguf" and is not
    empty. *)
Theorem find_best_gguf_file_is_listed (env : Env) (model_id r : string) :
  find_best_gguf_file env model_id = Some r ->
  exists files,
    list_repo_files env model_id = Returned files /\
    In r files /\ Py.endswith r ".gguf" = true /\ r <> "".
Proof.
  unfold find_best_gguf_file.
  destruct (list_repo_files env model_id) as [files|msg]; [|discriminate].
  intros H. apply best_of_listing_In in H as [Hin Hg].
  exists files. repeat split; try assumption.
  intros ->. discriminate Hg.
Qed.

Lemma find_best_gguf_file_is_listed_witness :
  In "model-Q3_K.gguf" demo_files.
Proof.
  destruct (find_best_gguf_file_is_listed demo_env "org/Phi-3-mini-GGUF"
              "model-Q3_K.gguf" eq_refl) as (files & Hl & Hin & _).
  injection Hl as <-. exact Hin.
Defined.

(** X5. The resolver gives up only when it must: it returns [None]
    exactly when the listing call raises or the listing holds no ".gguf"
    file. *)
Theorem find_best_gguf_file_none_iff (env : Env) (model_id : string) :
  find_best_gguf_file env model_id = None <->
  (exists msg, list_repo_files env model_id = Raised msg) \/
  (exists files, list_repo_files env model_id = Returned files /\
                 List.existsb is_gguf files = false).
Proof.
  unfold find_best_gguf_file.
  destruct (list_repo_files env model_id) as [files|msg].
  - split.
    + intros H. right. exists files. split; [reflexivity|].
      destruct (List.existsb is_gguf files) eqn:E; [|reflexivity].
      destruct (best_of_listing_some files E) as [r Hr]. congruence.
    + intros [[msg H] | (files' & H & Hnone)]; [discriminate|].
      injection H as <-.
      destruct (best_of_listing files) as [r|] eqn:E; [|reflexivity].
      apply best_of_listing_In in E as [Hin Hg].
      assert (List.existsb is_gguf files = true).
      { apply List.existsb_exists. eauto. }
      congruence.
  - split; [eauto | reflexivity].
Qed.

(** *** Independence of the listing order *)

Lemma filter_Permutation_bool {A : Type} (f : A -> bool) (l l' : list A) :
  Permutation l l' -> Permutation (List.filter f l) (List.filter f l').
Proof.
  induction 1 as [|x l l' _ IH|x y l|l l' l'' _ IH1 _ IH2]; simpl.
  - constructor.
  - destruct (f x); [constructor|]; exact IH.
  - destruct (f x), (f y); try reflexivity. constructor.
  - etransitivity; eassumption.
Qed.

Lemma first_sorted_Permutation (l l' : list string) :
  Permutation l l' -> first_sorted l = first_sorted l'.
Proof.
  intros Hp. destruct l as [|a l].
  - apply Permutation_nil in Hp as ->. reflexivity.
  - destruct l' as [|b l'].
    { apply Permutation_sym, Permutation_nil in Hp. discriminate. }
    destruct (first_sorted_nonempty a l) as [r Hr].
    destruct (first_sorted_nonempty b l') as [r' Hr'].
    rewrite Hr, Hr'. f_equal.
    apply first_sorted_least in Hr as [Hin Hle].
    apply first_sorted_least in Hr' as [Hin' Hle'].
    apply String.leb_antisym.
    + apply Hle. eapply Permutation_in; [symmetry; exact Hp | exact Hin'].
    + apply Hle'. eapply Permutation_in; [exact Hp | exact Hin].
Qed.

Lemma try_patterns_Permutation (patterns g g' : list string) :
  Permutation g g' -> try_patterns patterns g = try_patterns patterns g'.
Proof.
  intros Hp. induction patterns as [|p patterns IH]; simpl; [reflexivity|].
  pose proof (filter_Permutation_bool (Py.contains p) g g' Hp) as Hf.
  pose proof (first_sorted_Permutation _ _ Hf) as Hs.
  destruct (List.filter (Py.contains p) g) as [|a l];
    destruct (List.filter (Py.contains p) g') as [|b l'].
  - exact IH.
  - apply Permutation_nil in Hf. discriminate.
  - apply Permutation_sym, Permutation_nil in Hf. discriminate.
  - rewrite Hs. reflexivity.
Qed.

Lemma best_of_listing_Permutation (files files' : list string) :
  Permutation files files' -> best_of_listing files = best_of_listing files'.
Proof.
  intros Hp. unfold best_of_listing.
  pose proof (filter_Permutation_bool
                (fun f => is_gguf f && Py.contains "Q4_K_M" f) _ _ Hp) as Hq.
  pose proof (filter_Permutation_bool is_gguf _ _ Hp) as Hg.
  pose proof (first_sorted_Permutation _ _ Hq) as Hsq.
  pose proof (first_sorted_Permutation _ _ Hg) as Hsg.
  pose proof (try_patterns_Permutation fallback_patterns _ _ Hg) as Ht.
  destruct (List.filter (fun f => is_gguf f && Py.contains "Q4_K_M" f) files) as [|a l];
    destruct (List.filter (fun f => is_gguf f && Py.contains "Q4_K_M" f) files')
      as [|a' l'].
  - destruct (List.filter is_gguf files) as [|b m];
      destruct (List.filter is_gguf files') as [|b' m'].
    + reflexivity.
    + apply Permutation_nil in Hg. discriminate.
    + apply Permutation_sym, Permutation_nil in Hg. discriminate.
    + rewrite Ht, Hsg. reflexivity.
  - apply Permutation_nil in Hq. discriminate.
  - apply Permutation_sym, Permutation_nil in Hq. discriminate.
  - exact Hsq.
Qed.

(** X6. The choice does not depend on the order in which the hub lists
    the files: two listings that are permutations of each other resolve
    to the same file. *)
Theorem find_best_gguf_file_order_independent (env env' : Env)
    (model_id : string) (files files' : list string) :
  list_repo_files env model_id = Returned files ->
  list_repo_files env' model_id = Returned files' ->
  Permutation files files' ->
  find_best_gguf_file env model_id = find_best_gguf_file env' model_id.
Proof.
  intros H H' Hp. unfold find_best_gguf_file. rewrite H, H'.
  apply best_of_listing_Permutation, Hp.
Qed.

Lemma find_best_gguf_file_order_independent_witness :
  find_best_gguf_file demo_env "org/Phi-3-mini-GGUF"
  = find_best_gguf_file demo_env_reversed "org/Phi-3-mini-GGUF".
Proof.
  apply (find_best_gguf_file_order_independent demo_env demo_env_reversed
           "org/Phi-3-mini-GGUF" demo_files (List.rev demo_files));
    [reflexivity | reflexivity | apply Permutation_rev].
Defined.

(** ** Name Normalizer: shape of the result *)

Lemma lstrip_not_starts (s chars : string) :
  starts_in (Py.lstrip s chars) chars = false.
Proof.
  induction s as [|c s IH]; simpl; [reflexivity|].
  destruct (Py.char_in c chars) eqn:E; [exact IH | simpl; exact E].
Qed.

Lemma rstrip_not_ends (s chars : string) :
  ends_in (Py.rstrip s chars) chars = false.
Proof.
  induction s as [|c s IH]; [reflexivity|].
  cbn [Py.rstrip]. destruct (Py.rstrip s chars) as [|d r].
  - destruct (Py.char_in c chars) eqn:E; [reflexivity | simpl; exact E].
  - exact IH.
Qed.

Lemma rstrip_keeps_start (s chars : string) :
  starts_in s chars = false -> starts_in (Py.rstrip s chars) chars = false.
Proof.
  destruct s as [|c s]; [reflexivity|]. cbn [starts_in Py.rstrip]. intros H.
  destruct (Py.rstrip s chars); [rewrite H|]; simpl; auto.
Qed.

(** X7. A normalized name never starts or ends with '-' or '_'. *)
Theorem simplified_model_name_trimmed (model_id : string) :
  starts_in (simplified_model_name model_id) "-_" = false /\
  ends_in (simplified_model_name model_id) "-_" = false.
Proof.
  unfold simplified_model_name, clean_up, Py.strip. split.
  - apply rstrip_keeps_start, lstrip_not_starts.
  - apply rstrip_not_ends.
Qed.

Section Pieces.

Variable P : ascii -> bool.

Lemma all_chars_snoc (s : string) (c : ascii) :
  all_chars P (s ++ String c "") = all_chars P s && P c.
Proof. rewrite all_chars_app. simpl. rewrite andb_true_r. reflexivity. Qed.

(** Every piece of a split is made of characters of the string. *)
Lemma split_go_all_chars (sep cur s : string) (k : nat) :
  all_chars P cur = true -> all_chars P s = true ->
  List.Forall (fun piece => all_chars P piece = true) (Py.split_go sep k cur s).
Proof.
  revert k cur. induction s as [|c s IH]; intros k cur Hcur Hs.
  - simpl. constructor; [exact Hcur | constructor].
  - simpl in Hs. apply andb_prop in Hs as [Hc Hs]. cbn [Py.split_go].
    destruct k as [|k]; [|apply IH; assumption].
    destruct (String.prefix sep (String c s)).
    + constructor; [exact Hcur | apply IH; [reflexivity | exact Hs]].
    + apply IH; [|exact Hs]. rewrite all_chars_snoc, Hcur, Hc. reflexivity.
Qed.

Lemma last_piece_all_chars (s sep : string) :
  all_chars P s = true -> all_chars P (Py.last_piece (Py.split s sep)) = true.
Proof.
  intros Hs. unfold Py.last_piece, Py.split.
  pose proof (split_go_all_chars sep "" s 0 eq_refl Hs) as H.
  induction H as [|x l Hx Hl IH]; [reflexivity|].
  destruct l as [|y l]; [exact Hx | exact IH].
Qed.

Lemma replace_go_all_chars (old new s : string) (k : nat) :
  all_chars P new = true -> all_chars P s = true ->
  all_chars P (Py.replace_go old new k s) = true.
Proof.
  intros Hnew. revert k. induction s as [|c s IH]; intros k Hs; [reflexivity|].
  simpl in Hs. apply andb_prop in Hs as [Hc Hs]. cbn [Py.replace_go].
  destruct k as [|k]; [|apply IH, Hs].
  destruct (String.prefix old (String c s)).
  - rewrite all_chars_app, Hnew. simpl. apply IH, Hs.
  - simpl. rewrite Hc. simpl. apply IH, Hs.
Qed.

Lemma family_rewrite_all_chars (s : string) :
  all_chars P "llama-" = true -> all_chars P "mistral-" = true ->
  all_chars P s = true -> all_chars P (family_rewrite s) = true.
Proof.
  intros Hl Hm Hs. unfold family_rewrite.
  destruct (Py.contains "llama" s).
  - rewrite all_chars_app, Hl. simpl. apply last_piece_all_chars, Hs.
  - destruct (Py.contains "mistral" s); [|exact Hs].
    rewrite all_chars_app, Hm. simpl. apply last_piece_all_chars, Hs.
Qed.

End Pieces.

Lemma lower_char_not_upper (c : ascii) : not_upper (Py.lower_char c) = true.
Proof. destruct c as [[] [] [] [] [] [] [] []]; reflexivity. Qed.

Lemma not_upper_keep_norm (c : ascii) :
  not_upper c = true -> norm_char (keep_or_dash c) = true.
Proof. destruct c as [[] [] [] [] [] [] [] []]; vm_compute; congruence. Qed.

(** X8. A normalized name is made of lower-case letters, digits, '-' and
    '_' only, so lower-casing it (as the alias step does before it looks
    for markers) changes nothing. *)
Theorem simplified_model_name_lower_case (model_id : string) :
  all_chars norm_char (simplified_model_name model_id) = true /\
  Py.lower (simplified_model_name model_id) = simplified_model_name model_id.
Proof.
  assert (H : all_chars norm_char (simplified_model_name model_id) = true).
  { unfold simplified_model_name, clean_up, Py.strip.
    apply all_chars_rstrip, all_chars_lstrip.
    apply (all_chars_map norm_char not_upper); [apply not_upper_keep_norm|].
    apply replace_go_all_chars; [reflexivity|].
    apply family_rewrite_all_chars; [reflexivity | reflexivity |].
    apply (all_chars_map not_upper (fun _ => true)); [|apply all_chars_true].
    intros c _. apply lower_char_not_upper. }
  split; [exact H|].
  apply (map_chars_id norm_char); [apply norm_char_lower | exact H].
Qed.

(** ** Splitting at '/': the repo segment and the base name *)

Lemma split_go_nonempty (sep cur s : string) (k : nat) : Py.split_go sep k cur s <> [].
Proof.
  revert k cur. induction s as [|c s IH]; intros k cur; cbn [Py.split_go]; [discriminate|].
  destruct k; [|apply IH].
  destruct (String.prefix sep (String c s)); [discriminate | apply IH].
Qed.

Lemma last_piece_cons (x : string) (l : list string) :
  l <> [] -> Py.last_piece (x :: l) = Py.last_piece l.
Proof. destruct l; [congruence | reflexivity]. Qed.

Lemma prefix_empty (s : string) : String.prefix "" s = true.
Proof. destruct s; reflexivity. Qed.

Lemma prefix_slash (c : ascii) (s : string) :
  String.prefix "/" (String c s) = if Ascii.ascii_dec "/" c then true else false.
Proof. rewrite prefix_cons_cons, prefix_empty. reflexivity. Qed.

(** Text without '/' that follows the string stays in the last piece. *)
Lemma split_slash_tail (a b cur : string) :
  Py.contains "/" b = false ->
  Py.last_piece (Py.split_go "/" 0 cur (a ++ b))
  = Py.last_piece (Py.split_go "/" 0 cur a) ++ b.
Proof.
  intros Hb. revert cur. induction a as [|c a IH]; intros cur.
  - simpl. rewrite (split_go_absent _ _ _ Hb). reflexivity.
  - change (String c a ++ b) with (String c (a ++ b)). cbn [Py.split_go].
    rewrite !prefix_slash. destruct (Ascii.ascii_dec "/" c) as [_|_].
    + change (String.length "/" - 1)%nat with 0%nat.
      rewrite !last_piece_cons by apply split_go_nonempty. apply IH.
    + apply IH.
Qed.

Lemma split_slash_end (a cur : string) :
  Py.last_piece (Py.split_go "/" 0 cur (a ++ "/")) = "".
Proof.
  revert cur. induction a as [|c a IH]; intros cur; [reflexivity|].
  change (String c a ++ "/") with (String c (a ++ "/")). cbn [Py.split_go].
  rewrite prefix_slash. destruct (Ascii.ascii_dec "/" c) as [_|_].
  - change (String.length "/" - 1)%nat with 0%nat.
    rewrite last_piece_cons by apply split_go_nonempty. apply IH.
  - apply IH.
Qed.

(** The last piece of [a/b] is [b] when [b] has no '/'. *)
Lemma last_piece_after_slash (a b : string) :
  Py.contains "/" b = false ->
  Py.last_piece (Py.split (a ++ "/" ++ b) "/") = b.
Proof.
  intros Hb. unfold Py.split. rewrite <- string_app_assoc.
  rewrite (split_slash_tail _ _ _ Hb), split_slash_end. reflexivity.
Qed.

(** X9. Only the repo segment of the id counts: the owner part never
    reaches the local name, so equally named repositories of different
    owners get the same name (and the same configuration file). *)
Theorem simplified_model_name_ignores_owner (owner repo : string) :
  Py.contains "/" repo = false ->
  simplified_model_name (owner ++ "/" ++ repo) = simplified_model_name repo.
Proof.
  intros H. unfold simplified_model_name.
  rewrite (last_piece_after_slash _ _ H), (split_absent _ _ H). reflexivity.
Qed.

Lemma simplified_model_name_ignores_owner_witness :
  simplified_model_name "TheBloke/Phi-3-mini-GGUF"
  = simplified_model_name "bartowski/Phi-3-mini-GGUF".
Proof.
  exact (eq_trans
           (simplified_model_name_ignores_owner "TheBloke" "Phi-3-mini-GGUF" eq_refl)
           (eq_sym
              (simplified_model_name_ignores_owner "bartowski" "Phi-3-mini-GGUF" eq_refl))).
Defined.

Lemma all_chars_impl (P Q : ascii -> bool) (s : string) :
  (forall c, P c = true -> Q c = true) ->
  all_chars P s = true -> all_chars Q s = true.
Proof.
  intros HPQ. induction s as [|c s IH]; simpl; [auto|].
  intros H. apply andb_prop in H as [Hc H]. rewrite (HPQ c Hc). simpl. auto.
Qed.

Lemma not_alnum_lower (c : ascii) : not_alnum c = true -> Py.lower_char c = c.
Proof. destruct c as [[] [] [] [] [] [] [] []]; vm_compute; congruence. Qed.

Lemma not_alnum_keep (c : ascii) :
  not_alnum c = true -> Py.char_in (keep_or_dash c) "-_" = true.
Proof. destruct c as [[] [] [] [] [] [] [] []]; vm_compute; congruence. Qed.

Lemma lstrip_all (s chars : string) :
  all_chars (fun c => Py.char_in c chars) s = true -> Py.lstrip s chars = "".
Proof.
  induction s as [|c s IH]; simpl; [reflexivity|].
  intros H. apply andb_prop in H as [Hc H]. rewrite Hc. auto.
Qed.

Lemma absent_by_chars (P : ascii -> bool) (marker s : string) :
  all_chars P marker = false -> all_chars P s = true -> Py.contains marker s = false.
Proof.
  intros Hm Hs. destruct (Py.contains marker s) eqn:E; [|reflexivity].
  rewrite (all_chars_contains P marker s E Hs) in Hm. discriminate.
Qed.

(** X10. The empty name is not guarded against: when the repo segment
    of the id has no letter and no digit, the normalized name is the
    empty string. *)
Theorem simplified_model_name_can_be_empty (model_id : string) :
  all_chars not_alnum (Py.last_piece (Py.split model_id "/")) = true ->
  simplified_model_name model_id = "".
Proof.
  intros H. unfold simplified_model_name.
  set (seg := Py.last_piece (Py.split model_id "/")) in *.
  assert (Hlow : Py.lower seg = seg).
  { apply (map_chars_id not_alnum); [apply not_alnum_lower | exact H]. }
  rewrite Hlow. unfold family_rewrite.
  rewrite (absent_by_chars not_alnum "llama" seg eq_refl H).
  rewrite (absent_by_chars not_alnum "mistral" seg eq_refl H).
  unfold clean_up.
  rewrite (replace_absent _ _ _ (absent_by_chars not_alnum "-gguf" seg eq_refl H)).
  unfold Py.strip. rewrite lstrip_all; [reflexivity|].
  apply (all_chars_map _ not_alnum); [apply not_alnum_keep | exact H].
Qed.

Lemma simplified_model_name_can_be_empty_witness :
  simplified_model_name "org/-.-" = "".
Proof. apply simplified_model_name_can_be_empty. reflexivity. Defined.

(** ** Where the configuration file goes *)

Lemma endswith_app (s suf : string) :
  Py.endswith s suf = true -> exists pre, s = pre ++ suf.
Proof.
  induction s as [|c s IH]; cbn [Py.endswith]; intros H.
  - rewrite orb_false_r in H. apply String.eqb_eq in H as <-. exists "". reflexivity.
  - apply orb_prop in H as [H|H].
    + apply String.eqb_eq in H as <-. exists "". reflexivity.
    + destruct (IH H) as [pre ->]. exists (String c pre). reflexivity.
Qed.

Lemma name_char_not_slash (c : ascii) : name_char c = true -> not_slash c = true.
Proof. destruct c as [[] [] [] [] [] [] [] []]; vm_compute; congruence. Qed.

Lemma yaml_name_no_slash (name : string) :
  all_chars name_char name = true -> Py.contains "/" (name ++ ".yaml") = false.
Proof.
  intros H. apply (absent_by_chars not_slash); [reflexivity|].
  rewrite all_chars_app, (all_chars_impl _ _ _ name_char_not_slash H). reflexivity.
Qed.

Lemma basename_under_dir (config_dir file : string) :
  Py.contains "/" file = false ->
  Py.basename (dir_prefix config_dir ++ file) = file.
Proof.
  intros Hf. unfold Py.basename, dir_prefix.
  destruct (String.eqb_spec config_dir "") as [->|Hne]; simpl.
  { apply split_absent, Hf. }
  destruct (Py.endswith config_dir "/") eqn:E.
  - apply endswith_app in E as [pre ->]. rewrite string_app_assoc.
    apply last_piece_after_slash, Hf.
  - rewrite string_app_assoc. apply last_piece_after_slash, Hf.
Qed.

(** X11. A model's configuration file lies directly in the configuration
    directory: its path is the directory, a '/' when the directory does
    not end in one, and [<name>.yaml]; the base name of the path is
    [<name>.yaml], whatever the hub id. *)
Theorem config_file_stays_in_config_dir (config_dir model_id : string) :
  let name := simplified_model_name model_id in
  config_path_of config_dir name = dir_prefix config_dir ++ name ++ ".yaml" /\
  Py.basename (config_path_of config_dir name) = name ++ ".yaml".
Proof.
  intros name.
  pose proof (simplified_model_name_chars model_id) as Hchars. fold name in Hchars.
  assert (Hpath : config_path_of config_dir name
                  = dir_prefix config_dir ++ name ++ ".yaml").
  { apply config_path_of_relative, name_chars_relative, Hchars. }
  split; [exact Hpath|].
  rewrite Hpath. apply basename_under_dir, yaml_name_no_slash, Hchars.
Qed.

(** ** Config Emitter: the thread count *)

(** X12. The recommended thread count never decreases when cores are
    added; it is 2 up to 5 cores, half the core count (rounded down)
    from 4 to 17 cores, and 8 from 16 cores on. *)
Theorem recommended_threads_shape :
  (forall a b : Z, (a <= b)%Z -> (recommended_threads a <= recommended_threads b)%Z) /\
  (forall c : Z, (c <= 5)%Z -> recommended_threads c = 2%Z) /\
  (forall c : Z, (4 <= c <= 17)%Z -> recommended_threads c = (c / 2)%Z) /\
  (forall c : Z, (16 <= c)%Z -> recommended_threads c = 8%Z).
Proof.
  unfold recommended_threads. repeat split.
  - intros a b Hab. pose proof (Z.div_le_mono a b 2 ltac:(lia) Hab). lia.
  - intros c Hc. pose proof (Z.div_le_mono c 5 2 ltac:(lia) Hc).
    change (5 / 2)%Z with 2%Z in H. lia.
  - intros c [Hlo Hhi].
    pose proof (Z.div_le_mono 4 c 2 ltac:(lia) Hlo) as H1.
    pose proof (Z.div_le_mono c 17 2 ltac:(lia) Hhi) as H2.
    change (4 / 2)%Z with 2%Z in H1. change (17 / 2)%Z with 8%Z in H2. lia.
  - intros c Hc. pose proof (Z.div_le_mono 16 c 2 ltac:(lia) Hc) as H.
    change (16 / 2)%Z with 8%Z in H. lia.
Qed.

Lemma recommended_threads_shape_witness :
  recommended_threads 12 = 6%Z /\ (recommended_threads 3 <= recommended_threads 64)%Z.
Proof.
  destruct recommended_threads_shape as (Hmono & _ & Hmid & _).
  split; [rewrite Hmid by lia; reflexivity | apply Hmono; lia].
Defined.

(** ** [main]: the iteration of a model that succeeds *)

Lemma string_app_nil_inv (a b : string) : a ++ b = "" -> a = "" /\ b = "".
Proof. destruct a; simpl; [auto | discriminate]. Qed.

Lemma path_join_nonempty (a b : string) : b <> "" -> Py.path_join a b <> "".
Proof.
  intros Hb. unfold Py.path_join.
  destruct (Py.startswith b "/"); [exact Hb|].
  destruct (String.eqb a "" || Py.endswith a "/"); intros H.
  - apply string_app_nil_inv in H. tauto.
  - apply string_app_nil_inv in H as [_ H]. discriminate.
Qed.

(** The base name of a ".gguf" path is a ".gguf" file name. *)
Lemma basename_gguf (f : string) :
  Py.endswith f ".gguf" = true -> exists x, Py.basename f = x ++ ".gguf".
Proof.
  intros H. apply endswith_app in H as [pre ->].
  unfold Py.basename, Py.split. rewrite split_slash_tail by reflexivity. eauto.
Qed.

(** X13. The iteration of a model whose resolver result is [file_name]
    and whose download does not fail makes exactly one write, its
    configuration file [<config_dir>/<name>.yaml] pointing at
    [/models/<basename of file_name>], and appends the normalized name
    to the list of downloaded names. *)
Theorem process_model_success (env : Env) (args : Args) (st : FS)
    (names : list string) (model : ModelInfo) (file_name : string) :
  find_best_gguf_file env (id model) = Some file_name ->
  fetch env (id model) file_name (output_dir args) <> FetchFailed ->
  let name := simplified_model_name (id model) in
  process_model env args (st, names) model
  = (write_file (Py.path_join (config_dir args) (name ++ ".yaml"))
       (config_content (cpu_count env) name (Py.basename file_name)) st,
     (names ++ [name])%list).
Proof.
  intros Hf Hfetch name. unfold process_model. rewrite Hf.
  unfold find_best_gguf_file in Hf.
  destruct (list_repo_files env (id model)) as [files|msg]; [|discriminate].
  apply best_of_listing_In in Hf as [_ Hg].
  destruct file_name as [|c f]; [discriminate Hg|].
  unfold download_model.
  assert (Hdest : Py.path_join (output_dir args) (Py.basename (String c f)) <> "").
  { apply path_join_nonempty. destruct (basename_gguf _ Hg) as [x ->].
    intros H. apply string_app_nil_inv in H as [_ H]. discriminate. }
  destruct (Py.path_join (output_dir args) (Py.basename (String c f))) as [|d p];
    [congruence|].
  destruct (fetch env (id model) (String c f) (output_dir args));
    [reflexivity | reflexivity | congruence].
Qed.

Lemma process_model_success_witness :
  snd (process_model demo_env demo_args (empty_dir, [])
         {| id := "org/Phi-3-mini-GGUF"; downloads := 700 |})
  = ["phi-3-mini"].
Proof.
  rewrite (process_model_success demo_env demo_args empty_dir []
             {| id := "org/Phi-3-mini-GGUF"; downloads := 700 |} "model-Q3_K.gguf");
    [reflexivity | reflexivity | discriminate].
Defined.

(** ** [main]: what a run leaves behind *)

Lemma process_models_picked (env : Env) (args : Args)
    (models : list ModelInfo) (rs : run_state) :
  exists picked,
    picked `sublist_of` models /\
    snd (process_models env args models rs)
    = (snd rs ++ List.map (fun m => simplified_model_name (id m)) picked)%list.
Proof.
  unfold process_models. revert rs.
  induction models as [|m models IH]; intros rs; simpl.
  - exists []. rewrite List.app_nil_r. split; [constructor | reflexivity].
  - destruct (IH (process_model env args rs m)) as (picked & Hsub & ->).
    destruct rs as [st names]. unfold process_model.
    destruct (find_best_gguf_file env (id m)) as [[|c f]|];
      try (exists picked; split; [by apply sublist_cons | reflexivity]).
    destruct (download_model env (id m) (String c f) (output_dir args)) as [[|d p]|];
      try (exists picked; split; [by apply sublist_cons | reflexivity]).
    exists (m :: picked). split; [by apply sublist_skip|].
    simpl. rewrite <- List.app_assoc. reflexivity.
Qed.

(** The names [main] computes come from a subsequence of the hub's
    models. *)
Lemma main_names_picked (env : Env) (args : Args) (st0 : FS) :
  exists (st : FS) (names : list string) (picked : list ModelInfo),
    main env args st0 = Returned (st, names) /\
    picked `sublist_of` list_models env /\
    names = List.map (fun m => simplified_model_name (id m)) picked /\
    (Z.of_nat (List.length names) <= Z.max 1 (num_models args))%Z.
Proof.
  unfold main. destruct (list_only args).
  { exists st0, [], []. repeat split; [apply sublist_nil_l | simpl; lia]. }
  set (models := get_trending_gguf_models env (num_models args) (small_only args)
                   (parse_categories (include_categories args))).
  destruct (process_models_picked env args models (st0, [])) as (picked & Hsub & Hn).
  pose proof (process_models_inv env args st0 models (st0, []) (run_inv_init _ _))
    as (_ & Hnorm & Hdecl).
  destruct (process_models env args models (st0, [])) as [st names]. simpl in *.
  assert (Hall : picked `sublist_of` list_models env).
  { etrans; [exact Hsub | apply get_trending_gguf_models_sublist]. }
  assert (Hlen : (Z.of_nat (List.length names) <= Z.max 1 (num_models args))%Z).
  { subst names. rewrite List.length_map.
    apply sublist_length in Hsub.
    pose proof (get_trending_gguf_models_length env (num_models args)
                  (small_only args) (parse_categories (include_categories args))).
    fold models in H. change (@length ModelInfo) with (@List.length ModelInfo) in Hsub.
    lia. }
  destruct (create_aliases args); [|exists st, names, picked; auto].
  destruct names as [|n names'] eqn:En; [exists st, [], picked; auto|].
  rewrite <- En in *.
  destruct (create_openai_aliases_ok (config_dir args) names st Hnorm Hdecl)
    as (st' & ws' & -> & _).
  exists st', names, picked. auto.
Qed.

(** X14. When a run returns, the names it reports are the normalized
    ids of a subsequence of the hub's models, in hub order, and there
    are at most [max(1, num_models)] of them. *)
Theorem run_downloads_at_most_cap (env : Env) (args : Args) (st0 st : FS)
    (names : list string) :
  main env args st0 = Returned (st, names) ->
  exists picked : list ModelInfo,
    picked `sublist_of` list_models env /\
    names = List.map (fun m => simplified_model_name (id m)) picked /\
    (Z.of_nat (List.length names) <= Z.max 1 (num_models args))%Z.
Proof.
  intros Hmain.
  destruct (main_names_picked env args st0)
    as (st' & names' & picked & Hret & Hsub & Hnames & Hlen).
  rewrite Hret in Hmain. injection Hmain as <- <-.
  exists picked. auto.
Qed.

Lemma run_downloads_at_most_cap_witness :
  exists picked : list ModelInfo,
    picked `sublist_of` list_models demo_env /\
    ["phi-3-mini"] = List.map (fun m => simplified_model_name (id m)) picked /\
    (Z.of_nat (List.length ["phi-3-mini"]) <= Z.max 1 (num_models demo_args))%Z.
Proof.
  pose proof demo_run_names as Hn.
  destruct (main demo_env demo_args empty_dir) as [[st names]|msg] eqn:Hmain;
    [|destruct Hn].
  subst names.
  exact (run_downloads_at_most_cap demo_env demo_args empty_dir st ["phi-3-mini"] Hmain).
Defined.

(** X15. At the end of a run every reported name has its configuration
    file in the configuration directory, and that file declares the
    name, also after the alias step. *)
Theorem run_names_have_configs (env : Env) (args : Args) (st0 : FS) :
  exists (st : FS) (names : list string),
    main env args st0 = Returned (st, names) /\
    forall n, In n names ->
      exists content,
        files st !! Py.path_join (config_dir args) (n ++ ".yaml") = Some content /\
        Py.startswith content ("name: " ++ n ++ Py.nl) = true.
Proof.
  unfold main. destruct (list_only args).
  { exists st0, []. split; [reflexivity | intros n []]. }
  pose proof (process_models_inv env args st0
    (get_trending_gguf_models env (num_models args) (small_only args)
       (parse_categories (include_categories args)))
    (st0, []) (run_inv_init _ _)) as (_ & Hnorm & Hdecl).
  destruct (process_models env args _ (st0, [])) as [st names]. simpl in *.
  destruct (create_aliases args); [|exists st, names; auto].
  destruct names as [|n names'] eqn:En; [exists st, []; auto|].
  rewrite <- En in *.
  destruct (create_openai_aliases_ok (config_dir args) names st Hnorm Hdecl)
    as (st' & ws' & -> & _ & _ & Hdecl').
  exists st', names. auto.
Qed.

(** ** Alias Emitter: what it touches and what it creates *)

(** X16. The alias step makes at most two writes, each to
    [gpt-3.5-turbo.yaml] or [gpt-4.yaml] of the configuration directory,
    and leaves every other file, the source configurations included, as
    it was. *)
Theorem create_openai_aliases_touches_only_aliases (config_dir : string)
    (names : list string) (st : FS) :
  exists st' ws,
    create_openai_aliases config_dir names st = Returned st' /\
    trace st' = (trace st ++ ws)%list /\
    (List.length ws <= 2)%nat /\
    (forall ev, In ev ws ->
       fst ev = Py.path_join config_dir "gpt-3.5-turbo.yaml" \/
       fst ev = Py.path_join config_dir "gpt-4.yaml") /\
    (forall p,
       p <> Py.path_join config_dir "gpt-3.5-turbo.yaml" ->
       p <> Py.path_join config_dir "gpt-4.yaml" ->
       files st' !! p = files st !! p).
Proof.
  unfold create_openai_aliases.
  destruct names as [|n names'] eqn:En.
  { exists st, []. rewrite List.app_nil_r. simpl.
    repeat split; auto; intros ev []. }
  rewrite <- En. clear En.
  destruct (alias_gpt35_cases config_dir names st)
    as [-> | (m1 & ms1 & c1 & _ & _ & ->)];
    [ destruct (alias_gpt4_cases config_dir names st)
        as [-> | (m2 & ms2 & c2 & _ & _ & ->)]
    | destruct (alias_gpt4_cases config_dir names (write_file (gpt35_path config_dir) c1 st))
        as [-> | (m2 & ms2 & c2 & _ & _ & ->)] ];
    unfold gpt35_path, gpt4_path.
  - exists st, []. rewrite List.app_nil_r. simpl.
    repeat split; auto; intros ev [].
  - eexists _, [_]. split; [reflexivity|]. split; [reflexivity|]. simpl.
    split; [lia|]. split.
    + intros ev [<-|[]]. auto.
    + intros p _ Hp. apply lookup_insert_ne. congruence.
  - eexists _, [_]. split; [reflexivity|]. split; [reflexivity|]. simpl.
    split; [lia|]. split.
    + intros ev [<-|[]]. auto.
    + intros p Hp _. apply lookup_insert_ne. congruence.
  - eexists _, [_; _]. split; [reflexivity|]. split.
    { simpl. rewrite <- List.app_assoc. reflexivity. }
    simpl. split; [lia|]. split.
    + intros ev [<-|[<-|[]]]; auto.
    + intros p Hp35 Hp4. rewrite !lookup_insert_ne by congruence. reflexivity.
Qed.

Lemma alias_gpt35_hit (config_dir : string) (names : list string) (st : FS)
    (m : string) (ms : list string) :
  names_declared config_dir names st ->
  alias_candidates small_alias_markers names = m :: ms ->
  exists c,
    alias_gpt35 config_dir names st
    = Returned (write_file (gpt35_path config_dir) c st) /\
    declares_name c "gpt-3.5-turbo" = true.
Proof.
  intros Hnames E. unfold alias_gpt35. rewrite E.
  apply alias_candidates_In in E.
  destruct (Hnames m E) as (c & Hc & Hdecl).
  change (Py.path_join config_dir (m ++ ".yaml")) with (config_path_of config_dir m).
  unfold path_exists, read_file. rewrite Hc.
  rewrite bool_decide_eq_true_2 by eauto.
  eexists. split; [reflexivity|]. apply replace_name_declares, Hdecl.
Qed.

Lemma alias_gpt4_hit (config_dir : string) (names : list string) (st : FS)
    (m : string) (ms : list string) :
  names_declared config_dir names st ->
  alias_candidates large_alias_markers names = m :: ms ->
  exists c,
    alias_gpt4 config_dir names st
    = Returned (write_file (gpt4_path config_dir) c st) /\
    declares_name c "gpt-4" = true.
Proof.
  intros Hnames E. unfold alias_gpt4. rewrite E.
  apply alias_candidates_In in E.
  destruct (Hnames m E) as (c & Hc & Hdecl).
  change (Py.path_join config_dir (m ++ ".yaml")) with (config_path_of config_dir m).
  unfold path_exists, read_file. rewrite Hc.
  rewrite bool_decide_eq_true_2 by eauto.
  eexists. split; [reflexivity|].
  apply replace_context_size_declares.
  apply (replace_name_declares c m "gpt-4"), Hdecl.
Qed.

(** When every name has its configuration file, each slot with a
    matching name ends with its alias file in place. *)
Lemma create_openai_aliases_complete (config_dir : string)
    (names : list string) (st : FS) :
  List.Forall normalized names ->
  names_declared config_dir names st ->
  exists st',
    create_openai_aliases config_dir names st = Returned st' /\
    (alias_candidates small_alias_markers names <> [] ->
     exists c, files st' !! gpt35_path config_dir = Some c /\
               declares_name c "gpt-3.5-turbo" = true) /\
    (alias_candidates large_alias_markers names <> [] ->
     exists c, files st' !! gpt4_path config_dir = Some c /\
               declares_name c "gpt-4" = true).
Proof.
  intros Hnorm Hnames.
  pose proof (alias_paths_differ config_dir) as Hdiff.
  unfold create_openai_aliases.
  destruct names as [|n names'] eqn:En.
  { exists st. split; [reflexivity|]. split; intros H; exfalso; apply H; reflexivity. }
  rewrite <- En in *. clear En.
  destruct (alias_gpt35_ok config_dir names st Hnorm Hnames)
    as (st1 & ws1 & Hret1 & _ & _ & Hnames1).
  rewrite Hret1.
  assert (H35 : alias_candidates small_alias_markers names <> [] ->
                exists c, files st1 !! gpt35_path config_dir = Some c /\
                          declares_name c "gpt-3.5-turbo" = true).
  { intros Hc.
    destruct (alias_candidates small_alias_markers names) as [|m ms] eqn:E;
      [congruence|].
    destruct (alias_gpt35_hit config_dir names st m ms Hnames E) as (c & Hhit & Hd).
    rewrite Hhit in Hret1. injection Hret1 as <-.
    exists c. split; [apply lookup_insert_eq | exact Hd]. }
  destruct (alias_candidates large_alias_markers names) as [|m ms] eqn:E.
  - exists st1. split.
    + unfold alias_gpt4. rewrite E. reflexivity.
    + split; [exact H35 | congruence].
  - destruct (alias_gpt4_hit config_dir names st1 m ms Hnames1 E) as (c & Hhit & Hd).
    rewrite Hhit. eexists. split; [reflexivity|]. split.
    + intros Hc. destruct (H35 Hc) as (c35 & Hl & Hd35). exists c35.
      split; [|exact Hd35]. simpl. rewrite lookup_insert_ne by congruence. exact Hl.
    + intros _. exists c. split; [apply lookup_insert_eq | exact Hd].
Qed.

(** X17. With [--create-aliases] (and not [--list-only]), a run in which
    some downloaded name matches an alias slot ends with that alias file
    in the configuration directory, declaring the alias name. *)
Theorem run_creates_matching_aliases (env : Env) (args : Args) (st0 : FS) :
  create_aliases args = true ->
  list_only args = false ->
  exists (st : FS) (names : list string),
    main env args st0 = Returned (st, names) /\
    (alias_candidates small_alias_markers names <> [] ->
     exists c,
       files st !! Py.path_join (config_dir args) "gpt-3.5-turbo.yaml" = Some c /\
       Py.startswith c ("name: gpt-3.5-turbo" ++ Py.nl) = true) /\
    (alias_candidates large_alias_markers names <> [] ->
     exists c,
       files st !! Py.path_join (config_dir args) "gpt-4.yaml" = Some c /\
       Py.startswith c ("name: gpt-4" ++ Py.nl) = true).
Proof.
  intros Ha Hl. unfold main. rewrite Hl, Ha.
  pose proof (process_models_inv env args st0
    (get_trending_gguf_models env (num_models args) (small_only args)
       (parse_categories (include_categories args)))
    (st0, []) (run_inv_init _ _)) as (_ & Hnorm & Hdecl).
  destruct (process_models env args _ (st0, [])) as [st names]. simpl in *.
  destruct names as [|n names'] eqn:En.
  { exists st, []. split; [reflexivity|].
    split; intros H; exfalso; apply H; reflexivity. }
  rewrite <- En in *.
  destruct (create_openai_aliases_complete (config_dir args) names st Hnorm Hdecl)
    as (st' & -> & H35 & H4).
  exists st', names. split; [reflexivity|]. split; assumption.
Qed.

Lemma run_creates_matching_aliases_witness :
  exists (st : FS) (names : list string),
    main demo_env demo_args empty_dir = Returned (st, names) /\
    exists c,
      files st !! Py.path_join "/opt/localai/config" "gpt-3.5-turbo.yaml" = Some c /\
      Py.startswith c ("name: gpt-3.5-turbo" ++ Py.nl) = true.
Proof.
  destruct (run_creates_matching_aliases demo_env demo_args empty_dir eq_refl eq_refl)
    as (st & names & Hmain & H35 & _).
  exists st, names. split; [exact Hmain|].
  apply H35.
  pose proof demo_run_names as Hn. rewrite Hmain in Hn. subst names. discriminate.
Defined.

(** *** The alias file is a copy of the source configuration *)

Lemma replace_name_line (source alias rest : string) :
  Py.replace (("name: " ++ source) ++ Py.nl ++ rest)
    ("name: " ++ source) ("name: " ++ alias)
  = ("name: " ++ alias) ++ Py.nl ++
    Py.replace rest ("name: " ++ source) ("name: " ++ alias).
Proof.
  rewrite replace_at_start by discriminate. reflexivity.
Qed.

(** The gpt-3.5-turbo alias is the source configuration with the name
    line rewritten and nothing else changed, provided the text
    [name: <source name>] does not occur again further down in the
    source file (an occurrence there would be rewritten as well). *)
Lemma alias_gpt35_copies_source (config_dir : string) (names : list string)
    (st : FS) (m : string) (ms : list string) (rest : string) :
  alias_candidates small_alias_markers names = m :: ms ->
  files st !! Py.path_join config_dir (m ++ ".yaml")
  = Some (("name: " ++ m) ++ Py.nl ++ rest) ->
  Py.contains ("name: " ++ m) rest = false ->
  alias_gpt35 config_dir names st
  = Returned
      (write_file (Py.path_join config_dir "gpt-3.5-turbo.yaml")
         ("name: gpt-3.5-turbo" ++ Py.nl ++ rest) st).
Proof.
  intros Hc Hfile Habsent. unfold alias_gpt35. rewrite Hc.
  unfold path_exists, read_file. rewrite Hfile.
  rewrite bool_decide_eq_true_2 by eauto.
  change "name: gpt-3.5-turbo" with ("name: " ++ "gpt-3.5-turbo").
  rewrite (replace_name_line m "gpt-3.5-turbo" rest).
  rewrite (replace_absent _ _ _ Habsent). rewrite string_app_assoc. reflexivity.
Qed.

(** The gpt-4 alias is the source configuration with the name line
    rewritten and, below it, every [context_size: 2048] turned into
    [context_size: 4096], under the same proviso. *)
Lemma alias_gpt4_copies_source (config_dir : string) (names : list string)
    (st : FS) (m : string) (ms : list string) (rest : string) :
  alias_candidates large_alias_markers names = m :: ms ->
  files st !! Py.path_join config_dir (m ++ ".yaml")
  = Some (("name: " ++ m) ++ Py.nl ++ rest) ->
  Py.contains ("name: " ++ m) rest = false ->
  alias_gpt4 config_dir names st
  = Returned
      (write_file (Py.path_join config_dir "gpt-4.yaml")
         ("name: gpt-4" ++ Py.nl ++
          Py.replace rest "context_size: 2048" "context_size: 4096") st).
Proof.
  intros Hc Hfile Habsent. unfold alias_gpt4. rewrite Hc.
  unfold path_exists, read_file. rewrite Hfile.
  rewrite bool_decide_eq_true_2 by eauto.
  change "name: gpt-4" with ("name: " ++ "gpt-4").
  rewrite (replace_name_line m "gpt-4" rest).
  rewrite (replace_absent _ _ _ Habsent).
  change "context_size: 2048" with (String "c" "ontext_size: 2048").
  rewrite <- string_app_assoc.
  rewrite (replace_keeps_head _ _ (("name: " ++ "gpt-4") ++ Py.nl) rest "c") by reflexivity.
  rewrite string_app_assoc. reflexivity.
Qed.

(** *** Occurrences across a boundary *)

Lemma ends_in_weaken (s chars : string) (c : ascii) :
  ends_in s (String c chars) = false -> ends_in s chars = false.
Proof.
  induction s as [|e s IH]; [reflexivity|]. cbn [ends_in].
  destruct s as [|e' s]; [|exact IH].
  simpl. intros H. apply orb_false_elim in H. tauto.
Qed.

Section Boundary.

Variable old : string.
Hypothesis old_nonempty : old <> "".

(** A character that is not in [old] ends every attempt to match. *)
Lemma prefix_boundary_r (x : ascii) (a r : string) :
  Py.char_in x old = false ->
  String.prefix old (a ++ String x r) = String.prefix old a.
Proof.
  clear old_nonempty. revert a. induction old as [|o old' IH]; intros a Hx.
  - rewrite !prefix_empty. reflexivity.
  - simpl in Hx. apply orb_false_elim in Hx as [Hxo Hx].
    destruct a as [|c a]; simpl String.append.
    + rewrite prefix_cons_cons. destruct (Ascii.ascii_dec o x) as [->|_]; [|reflexivity].
      rewrite Ascii.eqb_refl in Hxo. discriminate.
    + rewrite !prefix_cons_cons. destruct (Ascii.ascii_dec o c); [|reflexivity].
      apply IH, Hx.
Qed.

Lemma contains_nil : Py.contains old "" = false.
Proof. destruct old; [congruence | reflexivity]. Qed.

Lemma contains_boundary_r (x : ascii) (a r : string) :
  Py.char_in x old = false ->
  Py.contains old (a ++ String x r)
  = Py.contains old a || Py.contains old (String x r).
Proof.
  intros Hx. induction a as [|c a IH].
  - rewrite contains_nil. reflexivity.
  - change (String c a ++ String x r) with (String c (a ++ String x r)).
    cbn [Py.contains]. rewrite IH.
    change (String c (a ++ String x r)) with (String c a ++ String x r).
    rewrite (prefix_boundary_r x (String c a) r Hx), orb_assoc. reflexivity.
Qed.

(** Text whose last character is not in [old] holds no start of an
    occurrence that runs on into what follows. *)
Lemma prefix_boundary_l (a f : string) :
  a <> "" -> ends_in a old = false ->
  String.prefix old (a ++ f) = String.prefix old a.
Proof.
  clear old_nonempty. revert a. induction old as [|o old' IH]; intros a Ha He.
  - rewrite !prefix_empty. reflexivity.
  - destruct a as [|c a]; [congruence|]. simpl String.append.
    rewrite !prefix_cons_cons. destruct (Ascii.ascii_dec o c) as [->|_]; [|reflexivity].
    destruct a as [|d a].
    + simpl in He. rewrite Ascii.eqb_refl in He. discriminate.
    + apply IH; [discriminate|]. apply (ends_in_weaken _ _ c). exact He.
Qed.

Lemma contains_boundary_l (a f : string) :
  a <> "" -> ends_in a old = false ->
  Py.contains old (a ++ f) = Py.contains old a || Py.contains old f.
Proof.
  induction a as [|c a IH]; intros Ha He; [congruence|].
  change (String c a ++ f) with (String c (a ++ f)). cbn [Py.contains].
  change (String c (a ++ f)) with (String c a ++ f).
  rewrite (prefix_boundary_l (String c a) f Ha He).
  destruct a as [|d a].
  - simpl String.append. rewrite contains_nil, orb_false_r. reflexivity.
  - rewrite IH by (discriminate || exact He). rewrite orb_assoc. reflexivity.
Qed.

Lemma replace_go_boundary_r (new : string) (x : ascii) (a r : string) (k : nat) :
  Py.char_in x old = false ->
  (k <= String.length a)%nat ->
  Py.replace_go old new k (a ++ String x r)
  = Py.replace_go old new k a ++ Py.replace_go old new 0 (String x r).
Proof.
  intros Hx. revert k. induction a as [|c a IH]; intros k Hk.
  - simpl in Hk. assert (k = 0)%nat as -> by lia. reflexivity.
  - destruct k as [|k].
    + change (String c a ++ String x r) with (String c (a ++ String x r)).
      cbn [Py.replace_go].
      change (String c (a ++ String x r)) with (String c a ++ String x r).
      rewrite (prefix_boundary_r x (String c a) r Hx).
      destruct (String.prefix old (String c a)) eqn:Hp.
      * apply prefix_length in Hp. simpl in Hp.
        destruct old as [|o old']; [congruence|]. simpl in Hp.
        rewrite IH by (simpl; lia). rewrite string_app_assoc. reflexivity.
      * rewrite IH by lia. reflexivity.
    + simpl in Hk. simpl. apply IH. lia.
Qed.

(** Text without an occurrence, followed by a character that is not in
    [old], is copied as it is. *)
Lemma replace_boundary_r (new : string) (x : ascii) (a r : string) :
  Py.char_in x old = false ->
  Py.contains old a = false ->
  Py.replace (a ++ String x r) old new = a ++ Py.replace (String x r) old new.
Proof.
  intros Hx Ha. unfold Py.replace.
  rewrite (replace_go_boundary_r new x a r 0 Hx) by lia.
  fold (Py.replace a old new). rewrite (replace_absent _ _ _ Ha). reflexivity.
Qed.

End Boundary.

(** *** The alias of a configuration written by [create_model_config] *)

Lemma config_content_text (cpu_cores : Z) (model_name model_file : string) :
  config_content cpu_cores model_name model_file
  = config_text "2048" cpu_cores model_name model_file.
Proof. reflexivity. Qed.

Lemma config_tail_parts (context_size : string) (cpu_cores : Z) (model_file : string) :
  config_tail context_size cpu_cores model_file
  = (config_head ++ model_file) ++ config_foot context_size cpu_cores.
Proof.
  unfold config_tail, config_head, config_foot, unlines.
  cbn [List.app List.fold_right]. rewrite !string_app_assoc. reflexivity.
Qed.

Lemma threads_cases (cpu_cores : Z) :
  In (recommended_threads cpu_cores) [2; 3; 4; 5; 6; 7; 8]%Z.
Proof.
  pose proof (recommended_threads_bounds cpu_cores) as H. simpl.
  assert (recommended_threads cpu_cores = 2 \/ recommended_threads cpu_cores = 3 \/
          recommended_threads cpu_cores = 4 \/ recommended_threads cpu_cores = 5 \/
          recommended_threads cpu_cores = 6 \/ recommended_threads cpu_cores = 7 \/
          recommended_threads cpu_cores = 8)%Z by lia.
  intuition auto.
Qed.

Ltac by_threads cpu_cores :=
  let H := fresh "H" in
  pose proof (threads_cases cpu_cores) as H;
  unfold config_foot;
  destruct H as [<-|[<-|[<-|[<-|[<-|[<-|[<-|[]]]]]]]]; vm_compute; reflexivity.

Lemma config_foot_no_name (cpu_cores : Z) :
  Py.contains "name: " (config_foot "2048" cpu_cores) = false.
Proof. by_threads cpu_cores. Qed.

Lemma config_foot_context_size (cpu_cores : Z) :
  Py.replace (config_foot "2048" cpu_cores) "context_size: 2048" "context_size: 4096"
  = config_foot "4096" cpu_cores.
Proof. by_threads cpu_cores. Qed.

Lemma config_foot_starts_nl (context_size : string) (cpu_cores : Z) :
  exists r, config_foot context_size cpu_cores = String (ascii_of_nat 10) r.
Proof. unfold config_foot. eexists. reflexivity. Qed.

Lemma contains_longer (p m s : string) :
  Py.contains p s = false -> Py.contains (p ++ m) s = false.
Proof.
  intros H. destruct (Py.contains (p ++ m) s) eqn:E; [|reflexivity].
  apply contains_app in E as (pre & post & ->).
  rewrite (proj2 (contains_app p _)) in H; [discriminate|].
  exists pre, (m ++ post). rewrite string_app_assoc. reflexivity.
Qed.

Lemma config_tail_no_name (cpu_cores : Z) (model_name model_file : string) :
  Py.contains "name: " model_file = false ->
  Py.contains ("name: " ++ model_name) (config_tail "2048" cpu_cores model_file) = false.
Proof.
  intros Hf. apply contains_longer. rewrite config_tail_parts.
  pose proof (config_foot_no_name cpu_cores) as Hfoot.
  destruct (config_foot_starts_nl "2048" cpu_cores) as [r Hr]. rewrite Hr in *.
  rewrite contains_boundary_r by (discriminate || reflexivity).
  rewrite contains_boundary_l by (discriminate || reflexivity).
  rewrite Hf, Hfoot. reflexivity.
Qed.

Lemma config_tail_context_size (cpu_cores : Z) (model_file : string) :
  Py.contains "context_size: 2048" model_file = false ->
  Py.replace (config_tail "2048" cpu_cores model_file)
    "context_size: 2048" "context_size: 4096"
  = config_tail "4096" cpu_cores model_file.
Proof.
  intros Hf. rewrite !config_tail_parts.
  pose proof (config_foot_context_size cpu_cores) as Hfoot.
  destruct (config_foot_starts_nl "2048" cpu_cores) as [r Hr]. rewrite Hr in *.
  rewrite replace_boundary_r; [rewrite Hfoot; reflexivity | discriminate | reflexivity |].
  rewrite contains_boundary_l by (discriminate || reflexivity).
  rewrite Hf. reflexivity.
Qed.

(** X18. The gpt-3.5-turbo alias of a configuration written by
    [create_model_config] is the configuration [create_model_config]
    writes for the name "gpt-3.5-turbo" and the same model file,
    provided the model file name does not contain the text "name: ". *)
Theorem alias_gpt35_of_created_config (config_dir : string) (names : list string)
    (st : FS) (m : string) (ms : list string) (cpu_cores : Z) (model_file : string) :
  alias_candidates small_alias_markers names = m :: ms ->
  files st !! Py.path_join config_dir (m ++ ".yaml")
  = Some (config_content cpu_cores m model_file) ->
  Py.contains "name: " model_file = false ->
  alias_gpt35 config_dir names st
  = Returned
      (write_file (Py.path_join config_dir "gpt-3.5-turbo.yaml")
         (config_content cpu_cores "gpt-3.5-turbo" model_file) st).
Proof.
  intros Hc Hfile Hf.
  exact (alias_gpt35_copies_source config_dir names st m ms
           (config_tail "2048" cpu_cores model_file) Hc Hfile
           (config_tail_no_name _ _ _ Hf)).
Qed.

Lemma alias_gpt35_of_created_config_witness :
  alias_gpt35 "/opt/localai/config" ["phi-2"]
    (dir_with "/opt/localai/config" "phi-2" "phi-2.Q4_K_M.gguf")
  = Returned
      (write_file (Py.path_join "/opt/localai/config" "gpt-3.5-turbo.yaml")
         (config_content 8 "gpt-3.5-turbo" "phi-2.Q4_K_M.gguf")
         (dir_with "/opt/localai/config" "phi-2" "phi-2.Q4_K_M.gguf")).
Proof.
  assert (Hfile : files (dir_with "/opt/localai/config" "phi-2" "phi-2.Q4_K_M.gguf")
                    !! Py.path_join "/opt/localai/config" ("phi-2" ++ ".yaml")
                  = Some (config_content 8 "phi-2" "phi-2.Q4_K_M.gguf"))
    by (unfold dir_with; apply lookup_insert_eq).
  exact (alias_gpt35_of_created_config "/opt/localai/config" ["phi-2"]
           (dir_with "/opt/localai/config" "phi-2" "phi-2.Q4_K_M.gguf")
           "phi-2" [] 8 "phi-2.Q4_K_M.gguf" eq_refl Hfile eq_refl).
Defined.

(** X19. The gpt-4 alias of a configuration written by
    [create_model_config] is that configuration with the name "gpt-4"
    and [context_size: 4096], all other lines unchanged, provided the
    model file name contains neither "name: " nor "context_size: 2048". *)
Theorem alias_gpt4_of_created_config (config_dir : string) (names : list string)
    (st : FS) (m : string) (ms : list string) (cpu_cores : Z) (model_file : string) :
  alias_candidates large_alias_markers names = m :: ms ->
  files st !! Py.path_join config_dir (m ++ ".yaml")
  = Some (config_content cpu_cores m model_file) ->
  Py.contains "name: " model_file = false ->
  Py.contains "context_size: 2048" model_file = false ->
  alias_gpt4 config_dir names st
  = Returned
      (write_file (Py.path_join config_dir "gpt-4.yaml")
         (config_text "4096" cpu_cores "gpt-4" model_file) st).
Proof.
  intros Hc Hfile Hf Hctx.
  pose proof (alias_gpt4_copies_source config_dir names st m ms
                (config_tail "2048" cpu_cores model_file) Hc Hfile
                (config_tail_no_name _ _ _ Hf)) as H.
  pose proof (config_tail_context_size cpu_cores model_file Hctx) as E.
  rewrite H. unfold config_text. rewrite <- E. reflexivity.
Qed.

Lemma alias_gpt4_of_created_config_witness :
  alias_gpt4 "/opt/localai/config" ["mistral-7b-instruct"]
    (dir_with "/opt/localai/config" "mistral-7b-instruct" "mistral-7b.Q4_K_M.gguf")
  = Returned
      (write_file (Py.path_join "/opt/localai/config" "gpt-4.yaml")
         (config_text "4096" 8 "gpt-4" "mistral-7b.Q4_K_M.gguf")
         (dir_with "/opt/localai/config" "mistral-7b-instruct" "mistral-7b.Q4_K_M.gguf")).
Proof.
  assert (Hfile : files (dir_with "/opt/localai/config" "mistral-7b-instruct"
                           "mistral-7b.Q4_K_M.gguf")
                    !! Py.path_join "/opt/localai/config" ("mistral-7b-instruct" ++ ".yaml")
                  = Some (config_content 8 "mistral-7b-instruct" "mistral-7b.Q4_K_M.gguf"))
    by (unfold dir_with; apply lookup_insert_eq).
  exact (alias_gpt4_of_created_config "/opt/localai/config" ["mistral-7b-instruct"]
           (dir_with "/opt/localai/config" "mistral-7b-instruct" "mistral-7b.Q4_K_M.gguf")
           "mistral-7b-instruct" [] 8 "mistral-7b.Q4_K_M.gguf"
           eq_refl Hfile eq_refl eq_refl).
Defined.

(** ** Fetcher: the destination and the configured model file *)

Lemma split_slash_pieces (cur s : string) (k : nat) :
  all_chars not_slash cur = true ->
  List.Forall (fun piece => all_chars not_slash piece = true) (Py.split_go "/" k cur s).
Proof.
  revert k cur. induction s as [|c s IH]; intros k cur Hcur.
  - simpl. constructor; [exact Hcur | constructor].
  - cbn [Py.split_go]. destruct k as [|k]; [|apply IH, Hcur].
    rewrite prefix_slash. destruct (Ascii.ascii_dec "/" c) as [_|Hne].
    + constructor; [exact Hcur | apply IH; reflexivity].
    + apply IH. rewrite all_chars_snoc, Hcur. unfold not_slash.
      destruct (Ascii.eqb_spec c "/") as [->|_]; [congruence | reflexivity].
Qed.

Lemma basename_no_slash (p : string) : Py.contains "/" (Py.basename p) = false.
Proof.
  apply (absent_by_chars not_slash); [reflexivity|].
  unfold Py.basename, Py.last_piece, Py.split.
  pose proof (split_slash_pieces "" p 0 eq_refl) as H.
  induction H as [|x l Hx Hl IH]; [reflexivity|].
  destruct l as [|y l]; [exact Hx | exact IH].
Qed.

Lemma no_slash_relative (b : string) :
  Py.contains "/" b = false -> Py.startswith b "/" = false.
Proof.
  unfold Py.startswith. destruct b as [|c b]; [reflexivity|].
  cbn [Py.contains]. intros H. apply orb_false_elim in H. tauto.
Qed.

(** X20. [download_model] fails exactly when the external download
    fails; otherwise it returns a path directly under the model
    directory whose base name is the base name of the repository file,
    the very name [create_model_config] puts after [/models/]. *)
Theorem download_model_destination (env : Env) (model_id file_name model_dir : string) :
  (download_model env model_id file_name model_dir = None <->
   fetch env model_id file_name model_dir = FetchFailed) /\
  (forall p,
     download_model env model_id file_name model_dir = Some p ->
     p = dir_prefix model_dir ++ Py.basename file_name /\
     Py.basename p = Py.basename file_name).
Proof.
  pose proof (basename_no_slash file_name) as Hb.
  assert (Hp : Py.path_join model_dir (Py.basename file_name)
               = dir_prefix model_dir ++ Py.basename file_name).
  { apply path_join_relative, no_slash_relative, Hb. }
  unfold download_model. split.
  - destruct (fetch env model_id file_name model_dir); split; congruence.
  - intros p H.
    assert (p = Py.path_join model_dir (Py.basename file_name)) as ->.
    { destruct (fetch env model_id file_name model_dir); congruence. }
    split; [exact Hp|]. rewrite Hp. apply basename_under_dir, Hb.
Qed.

Lemma download_model_destination_witness :
  Py.basename "/opt/localai/models/model-Q3_K.gguf" = Py.basename "sub/model-Q3_K.gguf".
Proof.
  destruct (download_model_destination demo_env "org/Phi-3-mini-GGUF"
              "sub/model-Q3_K.gguf" "/opt/localai/models") as [_ H].
  exact (proj2 (H "/opt/localai/models/model-Q3_K.gguf" eq_refl)).
Defined.

(** ** [main]: the category list *)

(** X21. A non-empty [--include-categories] value always yields a
    non-empty category list, so the category filter is then active; no
    entry starts or ends with white space; an absent or empty value
    yields no list. *)
Theorem parse_categories_entries (s : string) :
  parse_categories None = None /\
  parse_categories (Some "") = None /\
  (s <> "" ->
   exists cats,
     parse_categories (Some s) = Some cats /\
     cats <> [] /\
     forall c, In c cats ->
       starts_in c whitespace = false /\ ends_in c whitespace = false).
Proof.
  split; [reflexivity|]. split; [reflexivity|].
  intros Hs. destruct s as [|a s]; [congruence|].
  eexists. split; [reflexivity|]. split.
  - unfold Py.split.
    destruct (Py.split_go "," 0 "" (String a s)) eqn:E; [|discriminate].
    exfalso. exact (split_go_nonempty _ _ _ _ E).
  - intros c Hc. apply List.in_map_iff in Hc as (x & <- & _).
    unfold Py.strip. split.
    + apply rstrip_keeps_start, lstrip_not_starts.
    + apply rstrip_not_ends.
Qed.

Lemma parse_categories_entries_witness :
  exists cats, parse_categories (Some " llama , Gemma") = Some cats /\ cats <> [].
Proof.
  destruct (proj2 (proj2 (parse_categories_entries " llama , Gemma")))
    as (cats & H & Hne & _); [discriminate|].
  exists cats. auto.
Defined.
